(** * Query execution and resource scheduling core: a shallow embedding

    The development follows the C++ sources function by function:

    - [Scheduler]  : [load_simple_config] of scheduler/SchedInst.cpp;
    - [Simd]       : the runtime dispatch hooks of simd/hook.cpp;
    - [Conjunct]   : [PhyConjunctFilterExpr] of
                     exec/expression/ConjunctExpr.cpp;
    - [Executor]   : [ExecPlanNodeVisitor] of
                     query/visitors/ExecPlanNodeVisitor.cpp.

    Integers of the source ([int64_t], [size_t]) are [Z]; no computation below
    can leave their range on inputs the program accepts.  Byte arrays of
    [bool] are [list bool].  Code that can throw returns [ErrorOr]. *)

From Stdlib Require Import ZArith List Bool String Ascii Lia.
From Stdlib Require Import DecimalString DecimalZ.
Import ListNotations.

Local Open Scope Z_scope.

(** ** Errors shared by all components *)

Inductive ErrorKind : Type :=
| AssertViolation      (* AssertInfo(cond, msg) with a false condition *)
| UnexpectedError      (* PanicInfo(UnexpectedError, msg) *)
| OutOfRange           (* std::vector::at past the end *)
| InvalidAccess.       (* a null pointer or wrongly typed buffer is read *)

Inductive ErrorOr (A : Type) : Type :=
| Ok (a : A)
| Err (e : ErrorKind).

Arguments Ok {A} a.
Arguments Err {A} e.

Definition bindE {A B : Type} (m : ErrorOr A) (k : A -> ErrorOr B)
  : ErrorOr B :=
  match m with
  | Ok a => k a
  | Err e => Err e
  end.

Declare Scope error_scope.
Delimit Scope error_scope with error.
Notation "x <- m ;; k" := (bindE m (fun x => k))
  (at level 61, m at next level, right associativity) : error_scope.
Notation "' pat <- m ;; k" := (bindE m (fun x => match x with pat => k end))
  (at level 61, pat pattern, m at next level, right associativity)
  : error_scope.

(** [AssertInfo(cond, msg)]. *)
Definition AssertInfo (cond : bool) : ErrorOr unit :=
  if cond then Ok tt else Err AssertViolation.

(** ** Vectors handed between expressions, tasks and the executor *)

(** The buffer behind [ColumnVector::GetRawData()], with the element type
    the producer wrote it in. *)
Inductive RawData : Type :=
| BoolData (data : list bool)
| Int64Data (data : list Z).

#[local] Set Warnings "-register-all".

(** The dynamic type of a [VectorPtr] target: a [ColumnVector], a
    [RowVector] with its children, or anything else (no other subclass is
    told apart by the code). *)
Inductive Vector : Type :=
| ColumnVector (raw : RawData)
| RowVector (children : list Vector)
| BaseVector.

(** [VectorPtr]: a shared pointer, possibly null. *)
Definition VectorPtr : Type := option Vector.

(** The raw data read through a [bool] pointer, with [vec->size()]. *)
Definition bool_data (raw : RawData) : ErrorOr (list bool) :=
  match raw with
  | BoolData data => Ok data
  | Int64Data _ => Err InvalidAccess
  end.

(** The raw data read through an [int64_t] pointer, with [vec->size()]. *)
Definition int64_data (raw : RawData) : ErrorOr (list Z) :=
  match raw with
  | Int64Data data => Ok data
  | BoolData _ => Err InvalidAccess
  end.

(** ** scheduler/SchedInst.cpp *)

Module Scheduler.

Local Open Scope string_scope.
Local Open Scope list_scope.

(** [std::to_string(int64_t)]: signed decimal, no leading zeros. *)
Definition to_string (z : Z) : string :=
  NilEmpty.string_of_int (Z.to_int z).

(** Arguments of [ResourceFactory::Create(name, type, device_id,
    enable_loader, enable_executor)]. *)
Record Resource : Type := mkResource {
  res_name : string;
  res_type : string;
  res_device_id : Z;
  res_enable_loader : bool;
  res_enable_executor : bool
}.

(** [Connection(name, speed)]. *)
Record Connection : Type := mkConnection {
  conn_name : string;
  conn_speed : Z
}.

(** The calls [load_simple_config] makes on [ResMgrInst::GetInstance()]. *)
Inductive Call : Type :=
| Add (r : Resource)
| Connect (a b : string) (c : Connection).

(** The inner loop of lines 71-76: is [build_id] among [gpu_ids]? *)
Fixpoint find_gpu_id (gpu_ids : list Z) (build_id : Z) : bool :=
  match gpu_ids with
  | [] => false
  | gpu_id :: rest =>
      if Z.eqb gpu_id build_id then true else find_gpu_id rest build_id
  end.

(** Lines 68-80. *)
Fixpoint not_find_build_ids (gpu_ids build_gpu_ids : list Z) : list Z :=
  match build_gpu_ids with
  | [] => []
  | build_id :: rest =>
      if negb (find_gpu_id gpu_ids build_id)
      then build_id :: not_find_build_ids gpu_ids rest
      else not_find_build_ids gpu_ids rest
  end.

(** One iteration of either loop of lines 82-91. *)
Definition add_gpu (pcie : Connection) (gpu_id : Z) : list Call :=
  [ Add (mkResource (to_string gpu_id) "GPU" gpu_id true true);
    Connect "cpu" (to_string gpu_id) pcie ].

(** [load_simple_config], given what [get_gpu_pool()] and
    [get_build_resources()] returned. *)
Definition load_simple_config (gpu_ids build_gpu_ids : list Z) : list Call :=
  let io := mkConnection "io" 500 in
  let pcie := mkConnection "pcie" 12000 in
  [ Add (mkResource "disk" "DISK" 0 true false);
    Add (mkResource "cpu" "CPU" 0 true true);
    Connect "disk" "cpu" io ]
  ++ flat_map (add_gpu pcie) gpu_ids
  ++ flat_map (add_gpu pcie) (not_find_build_ids gpu_ids build_gpu_ids).

(** The resources handed to [ResourceMgr::Add], in call order. *)
Fixpoint added (calls : list Call) : list Resource :=
  match calls with
  | [] => []
  | Add r :: rest => r :: added rest
  | Connect _ _ _ :: rest => added rest
  end.

Definition added_names (calls : list Call) : list string :=
  map res_name (added calls).

(** Device ids of the resources of type "GPU" handed to [Add]. *)
Definition added_gpu_ids (calls : list Call) : list Z :=
  map res_device_id
      (filter (fun r => String.eqb (res_type r) "GPU") (added calls)).

(** What C9 asserts of one pair of pools: no name reaches [Add] twice, and
    the GPU resources added are one per distinct id of the union. *)
Definition one_add_per_device (gpu_ids build_gpu_ids : list Z) : Prop :=
  let calls := load_simple_config gpu_ids build_gpu_ids in
  NoDup (added_names calls) /\
  NoDup (added_gpu_ids calls) /\
  (forall id, In id (added_gpu_ids calls) <->
              In id gpu_ids \/ In id build_gpu_ids).

(** Walks a call sequence with the names added so far: every [Connect]
    must name two resources that an earlier [Add] introduced. *)
Fixpoint connects_known (known : list string) (calls : list Call) : bool :=
  match calls with
  | [] => true
  | Add r :: rest => connects_known (res_name r :: known) rest
  | Connect a b _ :: rest =>
      existsb (String.eqb a) known && existsb (String.eqb b) known
      && connects_known known rest
  end.

(** The links [load_simple_config] asks for, in call order. *)
Fixpoint connected (calls : list Call)
  : list (string * string * Connection) :=
  match calls with
  | [] => []
  | Add _ :: rest => connected rest
  | Connect a b c :: rest => (a, b, c) :: connected rest
  end.

(** The singletons the service functions drive. *)
Inductive Singleton : Type := ResMgr | Sched | JobMgr.

(** What [StartSchedulerService] and [StopSchedulerService] do to the
    singletons: a call on the resource manager's graph, [Start()] or
    [Stop()]. *)
Inductive ServiceCall : Type :=
| Graph (c : Call)
| Start (s : Singleton)
| Stop (s : Singleton).

(** [StartSchedulerService], lines 94-100. *)
Definition StartSchedulerService (gpu_ids build_gpu_ids : list Z)
  : list ServiceCall :=
  map Graph (load_simple_config gpu_ids build_gpu_ids)
  ++ [Start ResMgr; Start Sched; Start JobMgr].

(** [StopSchedulerService], lines 102-107. *)
Definition StopSchedulerService : list ServiceCall :=
  [Stop JobMgr; Stop Sched; Stop ResMgr].

(** The singletons a call sequence starts, resp. stops, in order. *)
Fixpoint started (calls : list ServiceCall) : list Singleton :=
  match calls with
  | [] => []
  | Start s :: rest => s :: started rest
  | _ :: rest => started rest
  end.

Fixpoint stopped (calls : list ServiceCall) : list Singleton :=
  match calls with
  | [] => []
  | Stop s :: rest => s :: stopped rest
  | _ :: rest => stopped rest
  end.

(** The calls on the resource graph of a call sequence, in order. *)
Fixpoint graph_calls (calls : list ServiceCall) : list Call :=
  match calls with
  | [] => []
  | Graph c :: rest => c :: graph_calls rest
  | _ :: rest => graph_calls rest
  end.

(** No graph call after the first [Start]. *)
Fixpoint graph_before_start (calls : list ServiceCall) : bool :=
  match calls with
  | [] => true
  | Graph _ :: rest => graph_before_start rest
  | _ :: rest =>
      forallb (fun c => match c with Graph _ => false | _ => true end) rest
  end.

End Scheduler.

(** ** simd/hook.cpp *)

Module Simd.

(** The preprocessor branch the file is compiled under. *)
Inductive Target : Type :=
| x86_64        (* defined(__x86_64__) *)
| ARM_NEON      (* defined(__ARM_NEON) *)
| OtherTarget.

(** What [InstructionSet::GetInstance()] reports (x86-64 only). *)
Record InstructionSet : Type := mkInstructionSet {
  AVX512F : bool;
  AVX512DQ : bool;
  AVX512BW : bool;
  AVX2 : bool;
  SSE42 : bool;
  SSE2 : bool
}.

(** The family a kernel belongs to: [GetBitsetBlockSSE2] is [KSSE2],
    [FindTermAVX512<T>] is [KAVX512], [AllTrueRef] is [KRef], ... *)
Inductive Kernel : Type :=
| KRef | KSSE2 | KSSE4 | KAVX2 | KAVX512 | KNEON.

(** The globals of hook.cpp: the [use_*] switches and one function pointer
    per dispatched symbol. *)
Record Hooks : Type := mkHooks {
  use_avx512 : bool;
  use_avx2 : bool;
  use_sse4_2 : bool;
  use_sse2 : bool;
  use_bitset_sse2 : bool;
  use_find_term_sse2 : bool;
  use_find_term_sse4_2 : bool;
  use_find_term_avx2 : bool;
  use_find_term_avx512 : bool;
  get_bitset_block : Kernel;
  all_false : Kernel;
  all_true : Kernel;
  invert_bool : Kernel;
  and_bool : Kernel;
  or_bool : Kernel;
  find_term_bool : Kernel;
  find_term_int8 : Kernel;
  find_term_int16 : Kernel;
  find_term_int32 : Kernel;
  find_term_int64 : Kernel;
  find_term_float : Kernel;
  find_term_double : Kernel
}.

(** Lines 35-61: the static initialisers.  The [bool]s without an
    initialiser have static storage and start as [false]. *)
Definition static_init : Hooks :=
  {| use_avx512 := true; use_avx2 := true;
     use_sse4_2 := true; use_sse2 := true;
     use_bitset_sse2 := false;
     use_find_term_sse2 := false; use_find_term_sse4_2 := false;
     use_find_term_avx2 := false; use_find_term_avx512 := false;
     get_bitset_block := KRef;
     all_false := KRef; all_true := KRef; invert_bool := KRef;
     and_bool := KRef; or_bool := KRef;
     find_term_bool := KRef; find_term_int8 := KRef;
     find_term_int16 := KRef; find_term_int32 := KRef;
     find_term_int64 := KRef; find_term_float := KRef;
     find_term_double := KRef |}.

Definition cpu_support_avx512 (cpu : InstructionSet) : bool :=
  AVX512F cpu && AVX512DQ cpu && AVX512BW cpu.
Definition cpu_support_avx2 (cpu : InstructionSet) : bool := AVX2 cpu.
Definition cpu_support_sse4_2 (cpu : InstructionSet) : bool := SSE42 cpu.
Definition cpu_support_sse2 (cpu : InstructionSet) : bool := SSE2 cpu.

Definition set_get_bitset_block (k : Kernel) (h : Hooks) : Hooks :=
  {| use_avx512 := use_avx512 h; use_avx2 := use_avx2 h;
     use_sse4_2 := use_sse4_2 h; use_sse2 := use_sse2 h;
     use_bitset_sse2 := true;
     use_find_term_sse2 := use_find_term_sse2 h;
     use_find_term_sse4_2 := use_find_term_sse4_2 h;
     use_find_term_avx2 := use_find_term_avx2 h;
     use_find_term_avx512 := use_find_term_avx512 h;
     get_bitset_block := k;
     all_false := all_false h; all_true := all_true h;
     invert_bool := invert_bool h;
     and_bool := and_bool h; or_bool := or_bool h;
     find_term_bool := find_term_bool h; find_term_int8 := find_term_int8 h;
     find_term_int16 := find_term_int16 h;
     find_term_int32 := find_term_int32 h;
     find_term_int64 := find_term_int64 h;
     find_term_float := find_term_float h;
     find_term_double := find_term_double h |}.

(** Binds the seven [find_term_*] pointers to family [k] and raises the
    [use_find_term_*] flag of that family. *)
Definition set_find_term (k : Kernel) (h : Hooks) : Hooks :=
  {| use_avx512 := use_avx512 h; use_avx2 := use_avx2 h;
     use_sse4_2 := use_sse4_2 h; use_sse2 := use_sse2 h;
     use_bitset_sse2 := use_bitset_sse2 h;
     use_find_term_sse2 :=
       match k with KSSE2 => true | _ => use_find_term_sse2 h end;
     use_find_term_sse4_2 :=
       match k with KSSE4 => true | _ => use_find_term_sse4_2 h end;
     use_find_term_avx2 :=
       match k with KAVX2 => true | _ => use_find_term_avx2 h end;
     use_find_term_avx512 :=
       match k with KAVX512 => true | _ => use_find_term_avx512 h end;
     get_bitset_block := get_bitset_block h;
     all_false := all_false h; all_true := all_true h;
     invert_bool := invert_bool h;
     and_bool := and_bool h; or_bool := or_bool h;
     find_term_bool := k; find_term_int8 := k; find_term_int16 := k;
     find_term_int32 := k; find_term_int64 := k; find_term_float := k;
     find_term_double := k |}.

Definition set_all_boolean (k : Kernel) (h : Hooks) : Hooks :=
  {| use_avx512 := use_avx512 h; use_avx2 := use_avx2 h;
     use_sse4_2 := use_sse4_2 h; use_sse2 := use_sse2 h;
     use_bitset_sse2 := use_bitset_sse2 h;
     use_find_term_sse2 := use_find_term_sse2 h;
     use_find_term_sse4_2 := use_find_term_sse4_2 h;
     use_find_term_avx2 := use_find_term_avx2 h;
     use_find_term_avx512 := use_find_term_avx512 h;
     get_bitset_block := get_bitset_block h;
     all_false := k; all_true := k;
     invert_bool := invert_bool h;
     and_bool := and_bool h; or_bool := or_bool h;
     find_term_bool := find_term_bool h; find_term_int8 := find_term_int8 h;
     find_term_int16 := find_term_int16 h;
     find_term_int32 := find_term_int32 h;
     find_term_int64 := find_term_int64 h;
     find_term_float := find_term_float h;
     find_term_double := find_term_double h |}.

Definition set_invert_bool (k : Kernel) (h : Hooks) : Hooks :=
  {| use_avx512 := use_avx512 h; use_avx2 := use_avx2 h;
     use_sse4_2 := use_sse4_2 h; use_sse2 := use_sse2 h;
     use_bitset_sse2 := use_bitset_sse2 h;
     use_find_term_sse2 := use_find_term_sse2 h;
     use_find_term_sse4_2 := use_find_term_sse4_2 h;
     use_find_term_avx2 := use_find_term_avx2 h;
     use_find_term_avx512 := use_find_term_avx512 h;
     get_bitset_block := get_bitset_block h;
     all_false := all_false h; all_true := all_true h;
     invert_bool := k;
     and_bool := and_bool h; or_bool := or_bool h;
     find_term_bool := find_term_bool h; find_term_int8 := find_term_int8 h;
     find_term_int16 := find_term_int16 h;
     find_term_int32 := find_term_int32 h;
     find_term_int64 := find_term_int64 h;
     find_term_float := find_term_float h;
     find_term_double := find_term_double h |}.

Definition set_logical (k : Kernel) (h : Hooks) : Hooks :=
  {| use_avx512 := use_avx512 h; use_avx2 := use_avx2 h;
     use_sse4_2 := use_sse4_2 h; use_sse2 := use_sse2 h;
     use_bitset_sse2 := use_bitset_sse2 h;
     use_find_term_sse2 := use_find_term_sse2 h;
     use_find_term_sse4_2 := use_find_term_sse4_2 h;
     use_find_term_avx2 := use_find_term_avx2 h;
     use_find_term_avx512 := use_find_term_avx512 h;
     get_bitset_block := get_bitset_block h;
     all_false := all_false h; all_true := all_true h;
     invert_bool := invert_bool h;
     and_bool := k; or_bool := k;
     find_term_bool := find_term_bool h; find_term_int8 := find_term_int8 h;
     find_term_int16 := find_term_int16 h;
     find_term_int32 := find_term_int32 h;
     find_term_int64 := find_term_int64 h;
     find_term_float := find_term_float h;
     find_term_double := find_term_double h |}.

(** Lines 90-118.  Every x86-64 branch installs [GetBitsetBlockSSE2]
    ("For now, sse2 has best performance"); no ARM branch exists. *)
Definition bitset_hook (t : Target) (cpu : InstructionSet) (h : Hooks)
  : Hooks :=
  match t with
  | x86_64 =>
      if use_avx512 h && cpu_support_avx512 cpu then
        set_get_bitset_block KSSE2 h
      else if use_avx2 h && cpu_support_avx2 cpu then
        set_get_bitset_block KSSE2 h
      else if use_sse4_2 h && cpu_support_sse4_2 cpu then
        set_get_bitset_block KSSE2 h
      else if use_sse2 h && cpu_support_sse2 cpu then
        set_get_bitset_block KSSE2 h
      else h
  | _ => h
  end.

(** Lines 120-170. *)
Definition find_term_hook (t : Target) (cpu : InstructionSet) (h : Hooks)
  : Hooks :=
  match t with
  | x86_64 =>
      if use_avx512 h && cpu_support_avx512 cpu then set_find_term KAVX512 h
      else if use_avx2 h && cpu_support_avx2 cpu then set_find_term KAVX2 h
      else if use_sse4_2 h && cpu_support_sse4_2 cpu then
        set_find_term KSSE4 h
      else if use_sse2 h && cpu_support_sse2 cpu then set_find_term KSSE2 h
      else h
  | _ => h
  end.

(** Lines 172-190. *)
Definition all_boolean_hook (t : Target) (cpu : InstructionSet) (h : Hooks)
  : Hooks :=
  match t with
  | x86_64 =>
      if use_sse2 h && cpu_support_sse2 cpu then set_all_boolean KSSE2 h
      else h
  | ARM_NEON => set_all_boolean KNEON h
  | OtherTarget => h
  end.

(** Lines 192-208. *)
Definition invert_boolean_hook (t : Target) (cpu : InstructionSet)
  (h : Hooks) : Hooks :=
  match t with
  | x86_64 =>
      if use_sse2 h && cpu_support_sse2 cpu then set_invert_bool KSSE2 h
      else h
  | ARM_NEON => set_invert_bool KNEON h
  | OtherTarget => h
  end.

(** Lines 210-236. *)
Definition logical_boolean_hook (t : Target) (cpu : InstructionSet)
  (h : Hooks) : Hooks :=
  match t with
  | x86_64 =>
      if use_avx512 h && cpu_support_avx512 cpu then set_logical KAVX512 h
      else if use_avx2 h && cpu_support_avx2 cpu then set_logical KAVX2 h
      else if use_sse2 h && cpu_support_sse2 cpu then set_logical KSSE2 h
      else h
  | ARM_NEON => set_logical KNEON h
  | OtherTarget => h
  end.

Definition boolean_hook (t : Target) (cpu : InstructionSet) (h : Hooks)
  : Hooks :=
  logical_boolean_hook t cpu
    (invert_boolean_hook t cpu (all_boolean_hook t cpu h)).

(** Lines 244-249: the initialiser of [init_hook_], run once on the
    statically initialised globals. *)
Definition init_hook_ (t : Target) (cpu : InstructionSet) (h : Hooks)
  : Hooks :=
  boolean_hook t cpu (find_term_hook t cpu (bitset_hook t cpu h)).

Definition after_init (t : Target) (cpu : InstructionSet) : Hooks :=
  init_hook_ t cpu static_init.

(** The dispatched symbols, to quantify over them. *)
Inductive Symbol : Type :=
| sym_get_bitset_block | sym_all_true | sym_all_false | sym_invert_bool
| sym_and_bool | sym_or_bool
| sym_find_term_bool | sym_find_term_int8 | sym_find_term_int16
| sym_find_term_int32 | sym_find_term_int64 | sym_find_term_float
| sym_find_term_double.

Definition binding (s : Symbol) (h : Hooks) : Kernel :=
  match s with
  | sym_get_bitset_block => get_bitset_block h
  | sym_all_true => all_true h
  | sym_all_false => all_false h
  | sym_invert_bool => invert_bool h
  | sym_and_bool => and_bool h
  | sym_or_bool => or_bool h
  | sym_find_term_bool => find_term_bool h
  | sym_find_term_int8 => find_term_int8 h
  | sym_find_term_int16 => find_term_int16 h
  | sym_find_term_int32 => find_term_int32 h
  | sym_find_term_int64 => find_term_int64 h
  | sym_find_term_float => find_term_float h
  | sym_find_term_double => find_term_double h
  end.

(** The seven [FindTermPtr<T>] pointers of lines 55-61. *)
Definition find_term_symbols : list Symbol :=
  [ sym_find_term_bool; sym_find_term_int8; sym_find_term_int16;
    sym_find_term_int32; sym_find_term_int64; sym_find_term_float;
    sym_find_term_double ].

(** The probe order C8 names: the family of the highest feature set the
    CPU has. *)
Definition highest_available (t : Target) (cpu : InstructionSet) : Kernel :=
  match t with
  | x86_64 =>
      if cpu_support_avx512 cpu then KAVX512
      else if cpu_support_avx2 cpu then KAVX2
      else if cpu_support_sse4_2 cpu then KSSE4
      else if cpu_support_sse2 cpu then KSSE2
      else KRef
  | ARM_NEON => KNEON
  | OtherTarget => KRef
  end.

(** What each hook really installs, per symbol. *)
Definition installed (s : Symbol) (t : Target) (cpu : InstructionSet)
  : Kernel :=
  match t with
  | x86_64 =>
      match s with
      | sym_get_bitset_block =>
          if cpu_support_avx512 cpu || cpu_support_avx2 cpu
             || cpu_support_sse4_2 cpu || cpu_support_sse2 cpu
          then KSSE2 else KRef
      | sym_all_true | sym_all_false | sym_invert_bool =>
          if cpu_support_sse2 cpu then KSSE2 else KRef
      | sym_and_bool | sym_or_bool =>
          if cpu_support_avx512 cpu then KAVX512
          else if cpu_support_avx2 cpu then KAVX2
          else if cpu_support_sse2 cpu then KSSE2
          else KRef
      | _ => highest_available x86_64 cpu
      end
  | ARM_NEON =>
      match s with
      | sym_all_true | sym_all_false | sym_invert_bool
      | sym_and_bool | sym_or_bool => KNEON
      | _ => KRef
      end
  | OtherTarget => KRef
  end.

(** A CPU with every probed feature. *)
Definition cpu_all : InstructionSet :=
  mkInstructionSet true true true true true true.

(** The globals as statically initialised, but with the four [use_*]
    switches set by the embedding program before the hooks run. *)
Definition with_switches (avx512 avx2 sse4_2 sse2 : bool) : Hooks :=
  {| use_avx512 := avx512; use_avx2 := avx2;
     use_sse4_2 := sse4_2; use_sse2 := sse2;
     use_bitset_sse2 := false;
     use_find_term_sse2 := false; use_find_term_sse4_2 := false;
     use_find_term_avx2 := false; use_find_term_avx512 := false;
     get_bitset_block := KRef;
     all_false := KRef; all_true := KRef; invert_bool := KRef;
     and_bool := KRef; or_bool := KRef;
     find_term_bool := KRef; find_term_int8 := KRef;
     find_term_int16 := KRef; find_term_int32 := KRef;
     find_term_int64 := KRef; find_term_float := KRef;
     find_term_double := KRef |}.

(** Can an x86-64 CPU execute the kernels of a family? *)
Definition runs_on (cpu : InstructionSet) (k : Kernel) : bool :=
  match k with
  | KRef => true
  | KSSE2 => cpu_support_sse2 cpu
  | KSSE4 => cpu_support_sse4_2 cpu
  | KAVX2 => cpu_support_avx2 cpu
  | KAVX512 => cpu_support_avx512 cpu
  | KNEON => false
  end.

(** The x86-64 feature sets as real CPUs have them: each one includes the
    older ones. *)
Definition nested_features (cpu : InstructionSet) : bool :=
  implb (cpu_support_avx512 cpu) (cpu_support_avx2 cpu)
  && implb (cpu_support_avx2 cpu) (cpu_support_sse4_2 cpu)
  && implb (cpu_support_sse4_2 cpu) (cpu_support_sse2 cpu).

(** All dispatched symbols. *)
Definition all_symbols : list Symbol :=
  [ sym_get_bitset_block; sym_all_true; sym_all_false; sym_invert_bool;
    sym_and_bool; sym_or_bool ] ++ find_term_symbols.

(** The four [use_*] switches of a state. *)
Definition switches (h : Hooks) : bool * bool * bool * bool :=
  (use_avx512 h, use_avx2 h, use_sse4_2 h, use_sse2 h).

(** The four [use_find_term_*] flags of a state, highest family first. *)
Definition find_term_flags (h : Hooks) : bool * bool * bool * bool :=
  (use_find_term_avx512 h, use_find_term_avx2 h,
   use_find_term_sse4_2 h, use_find_term_sse2 h).

End Simd.

(** ** exec/expression/ConjunctExpr.cpp *)

Module Conjunct.

Local Open Scope error_scope.

(** Modelled from the spec: the enum [DataType] (common/Types.h) is not
    among the sources; its members here are the scalar types section 3 lists
    for [ColumnVector<T>]. *)
Inductive DataType : Type :=
| BOOL | INT8 | INT16 | INT32 | INT64 | FLOAT | DOUBLE | STRING.

Definition DataType_eqb (a b : DataType) : bool :=
  match a, b with
  | BOOL, BOOL | INT8, INT8 | INT16, INT16 | INT32, INT32
  | INT64, INT64 | FLOAT, FLOAT | DOUBLE, DOUBLE | STRING, STRING => true
  | _, _ => false
  end.

(** The loop of lines 31-36. *)
Fixpoint expect_BOOLEAN (inputs : list DataType) : ErrorOr unit :=
  match inputs with
  | [] => Ok tt
  | type :: rest =>
      _ <- AssertInfo (DataType_eqb type BOOL) ;;
      expect_BOOLEAN rest
  end.

(** [PhyConjunctFilterExpr::ResolveType]. *)
Definition ResolveType (inputs : list DataType) : ErrorOr DataType :=
  _ <- AssertInfo (0 <? Z.of_nat (List.length inputs)) ;;
  _ <- expect_BOOLEAN inputs ;;
  Ok BOOL.

(** [AllTrue], the loop compiled without USE_DYNAMIC_SIMD. *)
Fixpoint AllTrue (data : list bool) : bool :=
  match data with
  | [] => true
  | d :: rest => if negb d then false else AllTrue rest
  end.

(** [AllFalse], the loop compiled without USE_DYNAMIC_SIMD. *)
Fixpoint AllFalse (data : list bool) : bool :=
  match data with
  | [] => true
  | d :: rest => if d then false else AllFalse rest
  end.

(** Modelled from the spec: [GetColumnVector] (a header not among the
    sources) yields the boolean column of a result, which by 4.C is the
    vector itself or the first child of a [RowVector]; anything else is an
    [UnexpectedError] (4.D). *)
Definition GetColumnVector (result : VectorPtr) : ErrorOr (list bool) :=
  match result with
  | Some (ColumnVector raw) => bool_data raw
  | Some (RowVector (ColumnVector raw :: _)) => bool_data raw
  | _ => Err UnexpectedError
  end.

(** The column [GetColumnVector] points into is written in place; this is
    the vector with that column replaced. *)
Definition store_column (result : VectorPtr) (data : list bool) : VectorPtr :=
  match result with
  | Some (ColumnVector _) => Some (ColumnVector (BoolData data))
  | Some (RowVector (ColumnVector _ :: others)) =>
      Some (RowVector (ColumnVector (BoolData data) :: others))
  | other => other
  end.

(** Modelled from the spec: [ConjunctElementFunc<is_and>] (ConjunctExpr.h,
    not among the sources) combines the input into the running result with
    [and_bool] (resp. [or_bool]), row by row over the input's rows, and
    returns how many combined rows are not yet dominated (true for AND,
    false for OR).  Rows of the result past the input are left as they
    are. *)
Fixpoint ConjunctElementFunc (is_and : bool) (input_data res_data : list bool)
  : list bool * Z :=
  match input_data, res_data with
  | i :: input_rest, r :: res_rest =>
      let v := if is_and then r && i else r || i in
      let '(out, activate_rows) :=
        ConjunctElementFunc is_and input_rest res_rest in
      (v :: out,
       if (if is_and then v else negb v)
       then activate_rows + 1 else activate_rows)
  | _, _ => (res_data, 0)
  end.

(** [PhyConjunctFilterExpr::UpdateResult]. *)
Definition UpdateResult (is_and_ : bool) (input_result result : list bool)
  : list bool * Z :=
  if is_and_ then ConjunctElementFunc true input_result result
  else ConjunctElementFunc false input_result result.

(** [PhyConjunctFilterExpr::CanSkipNextExprs]. *)
Definition CanSkipNextExprs (is_and_ : bool) (vec : list bool) : bool :=
  if (is_and_ && AllFalse vec) || (negb is_and_ && AllTrue vec)
  then true else false.

Section Eval.

(** Everything a child's [Eval] can read or change: the [EvalCtx] and the
    state reachable from it (chunk cursors, access counters). *)
Variable EvalCtx : Type.

(** A child expression: [inputs_[i]->Eval(context, input_result)]. *)
Definition Expr : Type := EvalCtx -> ErrorOr (VectorPtr * EvalCtx).

(** The loop of [PhyConjunctFilterExpr::Eval] from index [i] on. *)
Fixpoint Eval_from (is_and_ : bool) (inputs_ : list Expr) (i : Z)
  (context : EvalCtx) (result : VectorPtr) : ErrorOr (VectorPtr * EvalCtx) :=
  match inputs_ with
  | [] => Ok (result, context)
  | input :: rest =>
      '(input_result, context) <- input context ;;
      if i =? 0 then
        let result := input_result in
        all_flat_result <- GetColumnVector result ;;
        if CanSkipNextExprs is_and_ all_flat_result
        then Ok (result, context)
        else Eval_from is_and_ rest (i + 1) context result
      else
        input_flat_result <- GetColumnVector input_result ;;
        all_flat_result <- GetColumnVector result ;;
        let '(combined, active_rows) :=
          UpdateResult is_and_ input_flat_result all_flat_result in
        let result := store_column result combined in
        if active_rows =? 0
        then Ok (result, context)
        else Eval_from is_and_ rest (i + 1) context result
  end.

(** [PhyConjunctFilterExpr::Eval(context, result)]. *)
Definition Eval (is_and_ : bool) (inputs_ : list Expr)
  (context : EvalCtx) (result : VectorPtr) : ErrorOr (VectorPtr * EvalCtx) :=
  Eval_from is_and_ inputs_ 0 context result.

(** A boolean vector is dominated when no later child can change it:
    all-false under AND, all-true under OR. *)
Definition dominated (is_and_ : bool) (data : list bool) : bool :=
  if is_and_ then AllFalse data else AllTrue data.

End Eval.

Arguments Eval_from {EvalCtx} is_and_ inputs_ i context result.
Arguments Eval {EvalCtx} is_and_ inputs_ context result.

(** Scenario S2: the context counts column reads; [age > 100] and
    [salary > 0] each read their column once. *)
Definition age : list Z := [20; 30; 40; 50].
Definition salary : list Z := [1000; 2000; 3000; 4000].

Definition greater_than (column : list Z) (literal : Z) : Expr nat :=
  fun reads =>
    Ok (Some (ColumnVector (BoolData (map (fun x => literal <? x) column))),
        S reads).

(** [AllSet], lines 55-61: every byte of the vector is overwritten with
    [true]. *)
Fixpoint AllSet (data : list bool) : list bool :=
  match data with
  | [] => []
  | _ :: rest => true :: AllSet rest
  end.

(** [AllReset], lines 63-69. *)
Fixpoint AllReset (data : list bool) : list bool :=
  match data with
  | [] => []
  | _ :: rest => false :: AllReset rest
  end.

(** A child whose [Eval] yields the same boolean column whatever the
    context, and leaves the context alone. *)
Definition constant {EvalCtx : Type} (data : list bool) : Expr EvalCtx :=
  fun context => Ok (Some (ColumnVector (BoolData data)), context).

(** A child that yields a boolean column and counts its evaluation in the
    context. *)
Definition counted (data : list bool) : Expr nat :=
  fun evaluations => Ok (Some (ColumnVector (BoolData data)), S evaluations).

(** Row by row [a AND b] (resp. [a OR b]) of two columns. *)
Fixpoint rowwise (is_and : bool) (a b : list bool) : list bool :=
  match a, b with
  | x :: a', y :: b' =>
      (if is_and then x && y else x || y) :: rowwise is_and a' b'
  | _, _ => []
  end.

(** The conjunction (resp. disjunction) of all columns, with no short
    circuit. *)
Definition combine_all (is_and : bool) (first : list bool)
  (others : list (list bool)) : list bool :=
  fold_left (rowwise is_and) others first.

End Conjunct.

(** ** query/visitors/ExecPlanNodeVisitor.cpp *)

Module Executor.

Definition Timestamp : Type := Z.

(** *** The bitset

    [BitsetType] is [boost::dynamic_bitset<>]; bit [i] is element [i]. *)
Definition BitsetType : Type := list bool.

(** Modelled from the spec: the constructor [BitsetType(n, false)], an
    all-zero bitset of length [n] (4.D step 3). *)
Definition zeros (n : Z) : BitsetType := repeat false (Z.to_nat n).

(** Modelled from the spec: [resize(n)] keeps the first [n] bits and pads
    with zeros up to length [n] (section 3, fixed length N). *)
Definition resize (b : BitsetType) (n : Z) : BitsetType :=
  firstn (Z.to_nat n) b ++ repeat false (Z.to_nat n - List.length b)%nat.

(** Modelled from the spec: [flip] of section 3 inverts every bit. *)
Definition flip (b : BitsetType) : BitsetType := map negb b.

(** Modelled from the spec: [count_ones] of section 3 ([count()]). *)
Definition count (b : BitsetType) : Z :=
  Z.of_nat (List.length (filter (fun bit => bit) b)).

(** Modelled from the spec: the fixed length N of section 3 ([size()]). *)
Definition size (b : BitsetType) : Z := Z.of_nat (List.length b).

(** Modelled from the spec: [all] of section 3, every bit is set; it holds
    of the bitset of length 0. *)
Definition all (b : BitsetType) : bool := forallb (fun bit => bit) b.

(** Modelled from the spec: [AppendOneChunk] (query/Utils.h, not among the
    sources) is the bulk [append(bool* src, len)] of section 3. *)
Definition AppendOneChunk (result : BitsetType) (chunk : list bool)
  : BitsetType := result ++ chunk.

(** *** Plans and results *)

(** Modelled from the spec: the metrics of section 3. *)
Inductive MetricType : Type := L2 | IP | Cosine | Hamming | Jaccard.

(** A distance: the placeholder value of a metric (plus or minus infinity,
    depending on the metric) or a value computed by the index. *)
Inductive Distance : Type :=
| sentinel (metric : MetricType)
| measured (value : Z).

Record SearchInfo : Type := mkSearchInfo {
  topk_ : Z;
  metric_type_ : MetricType;
  round_decimal_ : Z
}.

Record SearchResult : Type := mkSearchResult {
  total_nq_ : Z;
  unity_topK_ : Z;
  seg_offsets_ : list Z;
  distances_ : list Distance
}.

(** Modelled from the spec: [SubSearchResult] (query/SubSearchResult.h, not
    among the sources) starts as [nq] rows of [top_k] placeholder offsets -1
    and sentinel distances (4.D step 2). *)
Record SubSearchResult : Type := mkSubSearchResult {
  mutable_seg_offsets : list Z;
  mutable_distances : list Distance
}.

(** Modelled from the spec: the constructor of [SubSearchResult]. *)
Definition SubSearchResult_new (num_queries topk : Z) (metric : MetricType)
  (round_decimal : Z) : SubSearchResult :=
  {| mutable_seg_offsets := repeat (-1) (Z.to_nat (num_queries * topk));
     mutable_distances :=
       repeat (sentinel metric) (Z.to_nat (num_queries * topk)) |}.

(** [empty_search_result]. *)
Definition empty_search_result (num_queries : Z) (search_info : SearchInfo)
  : SearchResult :=
  let result := SubSearchResult_new num_queries (topk_ search_info)
                  (metric_type_ search_info) (round_decimal_ search_info) in
  {| total_nq_ := num_queries;
     unity_topK_ := topk_ search_info;
     seg_offsets_ := mutable_seg_offsets result;
     distances_ := mutable_distances result |}.

Record Placeholder : Type := mkPlaceholder {
  num_of_queries_ : Z;
  blob_ : list Z
}.

Definition PlaceholderGroup : Type := list Placeholder.

(** [DataArray], as far as [wrap_num_entities] fills it. *)
Inductive FieldType : Type := Int64.

Record DataArray : Type := mkDataArray {
  type : FieldType;
  long_data : list Z
}.

Record RetrieveResult : Type := mkRetrieveResult {
  field_data_ : list DataArray;
  result_offsets_ : list Z
}.

(** A default-constructed [RetrieveResult]. *)
Definition RetrieveResult_new : RetrieveResult :=
  {| field_data_ := []; result_offsets_ := [] |}.

(** [wrap_num_entities]. *)
Definition wrap_num_entities (cnt : Z) : RetrieveResult :=
  {| field_data_ := [ {| type := Int64; long_data := [cnt] |} ];
     result_offsets_ := [] |}.

Section Visitor.

(** The predicate plan is opaque to the executor. *)
Context {PlanNode : Type}.

Record VectorPlanNode : Type := mkVectorPlanNode {
  search_info_ : SearchInfo;
  filter_plannode_ : option PlanNode
}.

Record RetrievePlanNode : Type := mkRetrievePlanNode {
  retrieve_filter_plannode_ : option PlanNode;
  limit_ : Z;
  is_count_ : bool
}.

(** [segcore::SegmentInternalInterface], the operations the executor
    calls.  The operations taking [BitsetType&] return the bitset they leave
    behind.  [task_results] is what [exec::Task::Create] over this segment
    and a timestamp yields from [Next()], result by result (each with its
    [childrens()]), until it returns null. *)
Record SegmentInternalInterface : Type := mkSegment {
  get_active_count : Timestamp -> Z;
  mask_with_timestamps : BitsetType -> Timestamp -> BitsetType;
  mask_with_delete : BitsetType -> Z -> Timestamp -> BitsetType;
  timestamp_filter : BitsetType -> Timestamp -> BitsetType;
  timestamp_filter_offsets :
    BitsetType -> list Z -> Timestamp -> BitsetType;
  find_first : Z -> BitsetType -> bool -> list Z;
  vector_search :
    SearchInfo -> list Z -> Z -> Timestamp -> BitsetType -> SearchResult;
  task_results : PlanNode -> Timestamp -> list (list Vector)
}.

(** The calls the executor makes on its collaborators, with arguments. *)
Inductive Event : Type :=
| EvGetActiveCount (ts : Timestamp)
| EvTask (plannode : PlanNode) (ts : Timestamp)
| EvMaskWithTimestamps (bitset : BitsetType) (ts : Timestamp)
| EvMaskWithDelete (bitset : BitsetType) (ins_barrier : Z) (ts : Timestamp)
| EvTimestampFilter (bitset : BitsetType) (ts : Timestamp)
| EvTimestampFilterOffsets (bitset : BitsetType) (offsets : list Z)
    (ts : Timestamp)
| EvFindFirst (limit : Z) (bitset : BitsetType) (false_filtered_out : bool)
| EvVectorSearch (info : SearchInfo) (data : list Z) (nq : Z)
    (ts : Timestamp) (bitset : BitsetType).

(** Executor code: it may throw, and it appends its calls to a log. *)
Definition M (A : Type) : Type := list Event -> ErrorOr (A * list Event).

Definition ret {A : Type} (a : A) : M A := fun log => Ok (a, log).

Definition bind {A B : Type} (m : M A) (k : A -> M B) : M B :=
  fun log =>
    match m log with
    | Ok (a, log') => k a log'
    | Err e => Err e
    end.

Definition lift {A : Type} (r : ErrorOr A) : M A :=
  fun log =>
    match r with
    | Ok a => Ok (a, log)
    | Err e => Err e
    end.

Definition call {A : Type} (e : Event) (value : A) : M A :=
  fun log => Ok (value, log ++ [e]).

End Visitor.

Arguments VectorPlanNode PlanNode : clear implicits.
Arguments RetrievePlanNode PlanNode : clear implicits.
Arguments SegmentInternalInterface PlanNode : clear implicits.
Arguments Event PlanNode : clear implicits.
Arguments M PlanNode A : clear implicits.

Declare Scope exec_scope.
Delimit Scope exec_scope with exec.
Notation "x <- m ;; k" := (bind m (fun x => k))
  (at level 61, m at next level, right associativity) : exec_scope.
Notation "' pat <- m ;; k" := (bind m (fun x => match x with pat => k end))
  (at level 61, pat pattern, m at next level, right associativity)
  : exec_scope.

Section Code.

Context {PlanNode : Type}.
Variable segment : SegmentInternalInterface PlanNode.
Variable timestamp_ : Timestamp.

(** [row->child(i)] cast to [ColumnVector], then [GetRawData()]: a missing
    child or one of another class leaves a null pointer to read from. *)
Definition child_raw (row : list Vector) (i : nat) : ErrorOr RawData :=
  match nth_error row i with
  | Some (ColumnVector raw) => Ok raw
  | _ => Err InvalidAccess
  end.

(** The mutable arguments of [ExecuteExprNodeInternal]. *)
Record ExprOut : Type := mkExprOut {
  bitset_holder : BitsetType;
  cache_offset_getted : bool;
  cache_offset : list Z
}.

(** One turn of the loop of lines 95-130, for the [childrens()] of a
    non-null result of [task->Next()]. *)
Definition append_result (childrens : list Vector) (out : ExprOut)
  : ErrorOr ExprOut :=
  (_ <- AssertInfo (Z.of_nat (List.length childrens) =? 1) ;;
   match childrens with
   | ColumnVector raw :: _ =>
       data <- bool_data raw ;;
       Ok (mkExprOut (AppendOneChunk (bitset_holder out) data)
                     (cache_offset_getted out) (cache_offset out))
   | RowVector row :: _ =>
       bit_raw <- child_raw row 0 ;;
       data <- bool_data bit_raw ;;
       let bitset := AppendOneChunk (bitset_holder out) data in
       if negb (cache_offset_getted out) then
         offset_raw <- child_raw row 1 ;;
         offsets <- int64_data offset_raw ;;
         Ok (mkExprOut bitset true (cache_offset out ++ offsets))
       else
         Ok (mkExprOut bitset (cache_offset_getted out) (cache_offset out))
   | _ => Err UnexpectedError
   end)%error.

(** The loop [for (;;)] of lines 95-130 over what [Next()] yields. *)
Fixpoint drain (results : list (list Vector)) (out : ExprOut)
  : ErrorOr ExprOut :=
  match results with
  | [] => Ok out
  | childrens :: rest =>
      (out' <- append_result childrens out ;; drain rest out')%error
  end.

(** [ExecPlanNodeVisitor::ExecuteExprNodeInternal]. *)
Definition ExecuteExprNodeInternal (plannode : PlanNode) (out : ExprOut)
  : M PlanNode ExprOut :=
  (let out := mkExprOut [] (cache_offset_getted out) (cache_offset out) in
   results <- call (EvTask plannode timestamp_)
                   (task_results segment plannode timestamp_) ;;
   lift (drain results out))%exec.

(** Modelled from the spec: [ExecuteExprNode] (declared in a header not
    among the sources) drives the filter task to completion, accumulating
    each chunk's boolean vector into the bitset (4.D step 3); it keeps no
    offset cache. *)
Definition ExecuteExprNode (plannode : PlanNode) (result : BitsetType)
  : M PlanNode BitsetType :=
  (out <- ExecuteExprNodeInternal plannode (mkExprOut result false []) ;;
   ret (bitset_holder out))%exec.

(** [placeholder_group_->at(0)]. *)
Definition at_0 (placeholder_group_ : PlaceholderGroup)
  : ErrorOr Placeholder :=
  match placeholder_group_ with
  | ph :: _ => Ok ph
  | [] => Err OutOfRange
  end.

(** [ExecPlanNodeVisitor::VectorVisitorImpl]; the value returned is what
    is stored in [search_result_opt_]. *)
Definition VectorVisitorImpl (placeholder_group_ : PlaceholderGroup)
  (node : VectorPlanNode PlanNode) : M PlanNode SearchResult :=
  (ph <- lift (at_0 placeholder_group_) ;;
   let src_data := blob_ ph in
   let num_queries := num_of_queries_ ph in
   active_count <- call (EvGetActiveCount timestamp_)
                        (get_active_count segment timestamp_) ;;
   if active_count =? 0 then
     ret (empty_search_result num_queries (search_info_ node))
   else
     bitset_holder <-
       match filter_plannode_ node with
       | Some plannode =>
           expr_res <- ExecuteExprNode plannode [] ;;
           ret (flip expr_res)
       | None => ret (zeros active_count)
       end ;;
     bitset_holder <-
       call (EvMaskWithTimestamps bitset_holder timestamp_)
            (mask_with_timestamps segment bitset_holder timestamp_) ;;
     bitset_holder <-
       call (EvMaskWithDelete bitset_holder active_count timestamp_)
            (mask_with_delete segment bitset_holder active_count
                              timestamp_) ;;
     if all bitset_holder then
       ret (empty_search_result num_queries (search_info_ node))
     else
       let final_view := bitset_holder in
       call (EvVectorSearch (search_info_ node) src_data num_queries
                            timestamp_ final_view)
            (vector_search segment (search_info_ node) src_data num_queries
                           timestamp_ final_view))%exec.

(** [ExecPlanNodeVisitor::visit(RetrievePlanNode&)]; the value returned is
    what is stored in [retrieve_result_opt_]. *)
Definition visit (node : RetrievePlanNode PlanNode)
  : M PlanNode RetrieveResult :=
  (let retrieve_result := RetrieveResult_new in
   active_count <- call (EvGetActiveCount timestamp_)
                        (get_active_count segment timestamp_) ;;
   if (active_count =? 0) && negb (is_count_ node) then
     ret retrieve_result
   else if (active_count =? 0) && is_count_ node then
     ret (wrap_num_entities 0)
   else
     let bitset_holder0 : BitsetType := [] in
     let bitset_holder0 :=
       if is_count_ node then resize bitset_holder0 active_count
       else bitset_holder0 in
     out <-
       match retrieve_filter_plannode_ node with
       | Some plannode =>
           out <- ExecuteExprNodeInternal plannode
                    (mkExprOut bitset_holder0 false []) ;;
           ret (mkExprOut (flip (bitset_holder out))
                          (cache_offset_getted out) (cache_offset out))
       | None => ret (mkExprOut bitset_holder0 false [])
       end ;;
     let get_cache_offset := cache_offset_getted out in
     let cache_offsets := cache_offset out in
     bitset_holder <-
       call (EvMaskWithTimestamps (bitset_holder out) timestamp_)
            (mask_with_timestamps segment (bitset_holder out) timestamp_) ;;
     bitset_holder <-
       call (EvMaskWithDelete bitset_holder active_count timestamp_)
            (mask_with_delete segment bitset_holder active_count
                              timestamp_) ;;
     if all bitset_holder && negb (is_count_ node) then
       ret retrieve_result
     else if is_count_ node then
       let cnt := size bitset_holder - count bitset_holder in
       ret (wrap_num_entities cnt)
     else
       '(bitset_holder, false_filtered_out) <-
         (if get_cache_offset then
            bitset_holder <-
              call (EvTimestampFilterOffsets bitset_holder cache_offsets
                                             timestamp_)
                   (timestamp_filter_offsets segment bitset_holder
                                             cache_offsets timestamp_) ;;
            ret (bitset_holder, false)
          else
            let bitset_holder := flip bitset_holder in
            bitset_holder <-
              call (EvTimestampFilter bitset_holder timestamp_)
                   (timestamp_filter segment bitset_holder timestamp_) ;;
            ret (bitset_holder, true)) ;;
       offsets <-
         call (EvFindFirst (limit_ node) bitset_holder false_filtered_out)
              (find_first segment (limit_ node) bitset_holder
                          false_filtered_out) ;;
       ret {| field_data_ := field_data_ retrieve_result;
              result_offsets_ := offsets |})%exec.

End Code.

(** *** The filter task, in the words of the spec (4.C, 4.D step 3) *)

(** The boolean vector of a task result: the result is a boolean column, or
    a row vector of a boolean column and an offset column. *)
Definition chunk_bools (childrens : list Vector) : option (list bool) :=
  match childrens with
  | [ColumnVector (BoolData data)] => Some data
  | [RowVector (ColumnVector (BoolData data)
                :: ColumnVector (Int64Data _) :: _)] => Some data
  | _ => None
  end.

(** The offsets a task result materialized, if it is a row vector. *)
Definition chunk_offsets (childrens : list Vector) : option (list Z) :=
  match childrens with
  | [RowVector (_ :: ColumnVector (Int64Data offsets) :: _)] => Some offsets
  | _ => None
  end.

(** "Accumulating each chunk's boolean vector into a bitset". *)
Fixpoint filter_bits (results : list (list Vector)) : option BitsetType :=
  match results with
  | [] => Some []
  | childrens :: rest =>
      match chunk_bools childrens, filter_bits rest with
      | Some data, Some bits => Some (data ++ bits)
      | _, _ => None
      end
  end.

(** "If the filter materialized offsets, remember them as cache_offsets
    (computed only once)": the offsets of the first row-vector result. *)
Fixpoint materialized_offsets (results : list (list Vector))
  : option (list Z) :=
  match results with
  | [] => None
  | childrens :: rest =>
      match chunk_offsets childrens with
      | Some offsets => Some offsets
      | None => materialized_offsets rest
      end
  end.

(** The offsets a result adds to the cache when none is cached yet. *)
Definition new_offsets (found : option (list Z)) : list Z :=
  match found with
  | Some offsets => offsets
  | None => []
  end.

Definition is_some {A : Type} (o : option A) : bool :=
  match o with
  | Some _ => true
  | None => false
  end.

(** What running the optional filter of a plan yields: the accumulated
    bitset when there is a filter and its results are well formed. *)
Definition filter_yields {PlanNode : Type}
  (segment : SegmentInternalInterface PlanNode) (ts : Timestamp)
  (filter : option PlanNode) (yielded : option BitsetType) : Prop :=
  match filter, yielded with
  | Some plannode, Some bits =>
      filter_bits (task_results segment plannode ts) = Some bits
  | None, None => True
  | _, _ => False
  end.

(** The offsets the optional filter of a plan materialized. *)
Definition filter_offsets {PlanNode : Type}
  (segment : SegmentInternalInterface PlanNode) (ts : Timestamp)
  (filter : option PlanNode) : option (list Z) :=
  match filter with
  | Some plannode => materialized_offsets (task_results segment plannode ts)
  | None => None
  end.

(** The call that runs the optional filter. *)
Definition filter_calls {PlanNode : Type} (ts : Timestamp)
  (filter : option PlanNode) : list (Event PlanNode) :=
  match filter with
  | Some plannode => [EvTask plannode ts]
  | None => []
  end.

(** The bitset the retrieve path hands to [mask_with_timestamps]. *)
Definition retrieve_bitset (filter_result : option BitsetType)
  (is_count : bool) (active_count : Z) : BitsetType :=
  match filter_result with
  | Some bits => flip bits
  | None => if is_count then zeros active_count else []
  end.

(** The segment interface keeps the length of the bitsets it masks. *)
Definition masks_keep_length {PlanNode : Type}
  (segment : SegmentInternalInterface PlanNode) : Prop :=
  (forall b ts,
     List.length (mask_with_timestamps segment b ts) = List.length b) /\
  (forall b n ts,
     List.length (mask_with_delete segment b n ts) = List.length b).

(** The value an executor run returned, if it did not throw. *)
Definition returned {A L : Type} (r : ErrorOr (A * L)) : option A :=
  match r with
  | Ok (a, _) => Some a
  | Err _ => None
  end.

(** The bitset a call hands to [mask_with_timestamps], [mask_with_delete],
    [timestamp_filter] (either overload) or [find_first]; no other call of
    the retrieve path takes one. *)
Definition handed_bitset {PlanNode : Type} (e : Event PlanNode)
  : option BitsetType :=
  match e with
  | EvMaskWithTimestamps bitset _ => Some bitset
  | EvMaskWithDelete bitset _ _ => Some bitset
  | EvTimestampFilter bitset _ => Some bitset
  | EvTimestampFilterOffsets bitset _ _ => Some bitset
  | EvFindFirst _ bitset _ => Some bitset
  | _ => None
  end.

(** *** A table-backed segment, for the scenarios of section 8 *)

(** [b |= mask], position by position over the bits of [b]. *)
Fixpoint or_mask (b mask : list bool) : list bool :=
  match b, mask with
  | bit :: b', m :: mask' => (bit || m) :: or_mask b' mask'
  | _, _ => b
  end.

(** [b &= mask], position by position over the bits of [b]. *)
Fixpoint and_mask (b mask : list bool) : list bool :=
  match b, mask with
  | bit :: b', m :: mask' => (bit && m) :: and_mask b' mask'
  | _, _ => b
  end.

(** Offsets [from], [from+1], ... of the bits equal to [survivor]. *)
Fixpoint offsets_of (survivor : bool) (b : list bool) (from : Z) : list Z :=
  match b with
  | [] => []
  | bit :: rest =>
      if Bool.eqb bit survivor
      then from :: offsets_of survivor rest (from + 1)
      else offsets_of survivor rest (from + 1)
  end.

(** Rows [from], [from+1], ... that carry a tombstone at or before [ts]. *)
Fixpoint deleted_mask (rows : nat) (from : Z)
  (tombstones : list (Z * Timestamp)) (ts : Timestamp) : list bool :=
  match rows with
  | O => []
  | S rows' =>
      existsb (fun d => (fst d =? from) && (snd d <=? ts)) tombstones
      :: deleted_mask rows' (from + 1) tombstones ts
  end.

(** Modelled from the spec: a segment after section 6, given the insert
    timestamp of every row, the tombstones (row, timestamp), and the results
    its filter task yields.  [mask_with_timestamps] sets bit i when row i
    was inserted after [ts]; [mask_with_delete] sets bit i when row i has a
    tombstone at or before [ts]; the [timestamp_filter]s finalize the same
    visibility on a survivor bitset resp. on an exclusion bitset at the
    cached offsets; [find_first] lists the first [limit] surviving offsets;
    [vector_search] reports the surviving offsets it was given. *)
Definition table_segment (insert_ts : list Timestamp)
  (tombstones : list (Z * Timestamp)) (results : list (list Vector))
  : SegmentInternalInterface unit :=
  {| get_active_count := fun _ => Z.of_nat (List.length insert_ts);
     mask_with_timestamps := fun b ts =>
       or_mask b (map (fun t => ts <? t) insert_ts);
     mask_with_delete := fun b _ ts =>
       or_mask b (deleted_mask (List.length insert_ts) 0 tombstones ts);
     timestamp_filter := fun b ts =>
       and_mask b (map (fun t => t <=? ts) insert_ts);
     timestamp_filter_offsets := fun b offsets ts =>
       or_mask b
         (map (fun it => existsb (Z.eqb (fst it)) offsets && (ts <? snd it))
              (combine (map Z.of_nat (seq 0 (List.length insert_ts)))
                       insert_ts));
     find_first := fun limit b false_filtered_out =>
       firstn (Z.to_nat limit) (offsets_of false_filtered_out b 0);
     vector_search := fun info _ nq _ b =>
       {| total_nq_ := nq; unity_topK_ := topk_ info;
          seg_offsets_ := offsets_of false b 0;
          distances_ := map measured (offsets_of false b 0) |};
     task_results := fun _ _ => results |}.

(** Scenario S3: 1000 rows inserted at timestamp 1; the filter [x == 7]
    matches rows 12, 345 and 678 and comes back as one boolean column. *)
Definition S3_matches : list bool :=
  map (fun i => (i =? 12) || (i =? 345) || (i =? 678))%nat (seq 0 1000).

Definition S3_segment : SegmentInternalInterface unit :=
  table_segment (repeat 1 1000) [] [[ColumnVector (BoolData S3_matches)]].

(** Scenario S5: 6 rows inserted at timestamp 1, the filter accepts rows
    0-3, row 2 is deleted at timestamp 2. *)
Definition S5_matches : list bool := [true; true; true; true; false; false].

Definition S5_segment (results : list (list Vector))
  : SegmentInternalInterface unit :=
  table_segment (repeat 1 6%nat) [(2, 2)] results.

(** Scenario S4: 10 rows inserted at timestamps 1..10, nothing deleted. *)
Definition S4_segment : SegmentInternalInterface unit :=
  table_segment [1; 2; 3; 4; 5; 6; 7; 8; 9; 10] [] [].

(** The events of a log that hand a bitset to [timestamp_filter] (either
    overload) or to [find_first]. *)
Definition to_filter_or_find {PlanNode : Type} (e : Event PlanNode) : bool :=
  match e with
  | EvTimestampFilter _ _ | EvTimestampFilterOffsets _ _ _
  | EvFindFirst _ _ _ => true
  | _ => false
  end.

(** The events of a log that are calls of [vector_search]. *)
Definition is_vector_search {PlanNode : Type} (e : Event PlanNode) : bool :=
  match e with
  | EvVectorSearch _ _ _ _ _ => true
  | _ => false
  end.

(** The events of a log that run a filter task. *)
Definition is_task {PlanNode : Type} (e : Event PlanNode) : bool :=
  match e with
  | EvTask _ _ => true
  | _ => false
  end.

(** A result [task->Next()] must not yield, with the failure it causes:
    a result whose [childrens()] are not exactly one vector fails the
    [AssertInfo] of line 101, a single child that is neither a
    [ColumnVector] nor a [RowVector] reaches the [PanicInfo] of line 128. *)
Definition rejected (childrens : list Vector) : option ErrorKind :=
  match childrens with
  | [BaseVector] => Some UnexpectedError
  | [_] => None
  | _ => Some AssertViolation
  end.

End Executor.

(** ** segcore/load_index_c.cpp *)

Module LoadIndex.

Local Open Scope string_scope.

(** [std::map<std::string, std::string>]: [find]/[at]/[count] read a key,
    [operator[]] with assignment binds it. *)
Definition Params : Type := string -> option string.

Definition no_params : Params := fun _ => None.

Definition assign (m : Params) (key value : string) : Params :=
  fun k => if String.eqb key k then Some value else m k.

(** A [knowhere::Json] value as far as this file writes one. *)
Inductive Json : Type :=
| JString (s : string)
| JStrings (l : list string)
| JOther (text : string).

Definition Config : Type := string -> option Json.

Definition config_set (c : Config) (key : string) (value : Json) : Config :=
  fun k => if String.eqb key k then Some value else c k.

(** What a [catch (std::exception& e)] sees: a failed [AssertInfo] with
    its message, or an exception raised by a collaborator. *)
Inductive Exception : Type :=
| AssertFailed (msg : string)
| Raised (what : string).

Inductive ErrorCode : Type := Success | UnexpectedError_code.

(** [CStatus]; [error_msg] is the empty string or a copy of [e.what()],
    kept as the exception it was copied from. *)
Record CStatus : Type := mkCStatus {
  error_code : ErrorCode;
  error_msg : option Exception
}.

Definition success : CStatus := mkCStatus Success None.

Definition failure (e : Exception) : CStatus :=
  mkCStatus UnexpectedError_code (Some e).

Record FieldDataMeta : Type := mkFieldDataMeta {
  fm_collection_id : Z;
  fm_partition_id : Z;
  fm_segment_id : Z;
  fm_field_id : Z
}.

Record IndexMeta : Type := mkIndexMeta {
  im_segment_id : Z;
  im_field_id : Z;
  im_build_id : Z;
  im_index_version : Z
}.

(** [std::filesystem::path::has_filename] on a POSIX path given as a
    string: the path is not empty and does not end in a separator. *)
Fixpoint has_filename (p : string) : bool :=
  match p with
  | EmptyString => false
  | String c EmptyString => negb (Ascii.eqb c "/")
  | String _ rest => has_filename rest
  end.

(** [p / q] for a relative, non-empty [q]: a separator is added when [p]
    has a filename. *)
Definition path_append (p q : string) : string :=
  if has_filename p then p ++ "/" ++ q else p ++ q.

(** Lines 262-266 and 334-338. *)
Definition mmap_filepath (mmap_dir_path : string)
  (segment_id field_id index_id : Z) : string :=
  path_append
    (path_append
       (path_append mmap_dir_path (Scheduler.to_string segment_id))
       (Scheduler.to_string field_id))
    (Scheduler.to_string index_id).

Section WithCollaborators.

(** Types declared in headers that are not among the sources. *)
Context {DataType Index BinarySet ChunkManager Space : Type}.

Record CreateIndexInfo : Type := mkCreateIndexInfo {
  ci_field_type : DataType;
  ci_index_type : string;
  ci_metric_type : string;            (* default-constructed: empty *)
  ci_index_engine_version : option Z  (* [None]: left as constructed *)
}.

(** [storage::FileManagerContext]: default-constructed, or built from the
    metas, a chunk manager (possibly null) and possibly a space. *)
Inductive FileManagerContext : Type :=
| NoContext
| Context_ (field_meta : FieldDataMeta) (index_meta : IndexMeta)
    (chunk_manager : option ChunkManager) (space : option Space).

(** [segcore::LoadIndexInfo]. *)
Record LoadIndexInfo : Type := mkLoadIndexInfo {
  collection_id : Z;
  partition_id : Z;
  segment_id : Z;
  field_id : Z;
  field_type : DataType;
  enable_mmap : bool;
  mmap_dir_path : string;
  index_id : Z;
  index_build_id : Z;
  index_version : Z;
  index_params : Params;
  index_files : list string;
  index : option Index;
  uri : string;
  index_store_version : Z;
  index_engine_version : Z
}.

(** The collaborators, taken as they are.  Creating an index yields it
    or raises; a load works on the index object in place and so yields the
    object as it leaves it, with the exception it raised if any. *)
Record Collaborators : Type := mkCollaborators {
  datatype_is_vector : DataType -> bool;
  kMmapFilepath : string;
  GetRemoteChunkManager : ChunkManager;
  ParseConfigFromIndexParams : Params -> Config;
  CreateIndex : CreateIndexInfo -> FileManagerContext -> Exception + Index;
  CreateIndex_space :
    CreateIndexInfo -> FileManagerContext -> Space -> Exception + Index;
  IsMmapSupported : Index -> bool;
  Load_binary :
    Index -> BinarySet -> option Config -> Index * option Exception;
  Load : Index -> Config -> Index * option Exception;
  LoadV2 : Index -> Config -> Index * option Exception;
  Space_Open : string -> Z -> option Space
}.

Variable env : Collaborators.

(** A [try] block: the fields written before an exception stay written. *)
Definition Body : Type := LoadIndexInfo -> LoadIndexInfo * option Exception.

(** [try { body; return Success } catch (std::exception& e) { return
    UnexpectedError with e.what() }]. *)
Definition try_catch (body : Body) (info : LoadIndexInfo)
  : CStatus * LoadIndexInfo :=
  match body info with
  | (info', None) => (success, info')
  | (info', Some e) => (failure e, info')
  end.

Definition set_index (info : LoadIndexInfo) (i : Index) : LoadIndexInfo :=
  mkLoadIndexInfo (collection_id info) (partition_id info) (segment_id info)
    (field_id info) (field_type info) (enable_mmap info)
    (mmap_dir_path info) (index_id info) (index_build_id info)
    (index_version info) (index_params info) (index_files info) (Some i)
    (uri info) (index_store_version info) (index_engine_version info).

(** [AppendIndexParam]. *)
Definition AppendIndexParam (info : LoadIndexInfo)
  (c_index_key c_index_value : string) : CStatus * LoadIndexInfo :=
  try_catch (fun info =>
    (mkLoadIndexInfo (collection_id info) (partition_id info)
       (segment_id info) (field_id info) (field_type info)
       (enable_mmap info) (mmap_dir_path info) (index_id info)
       (index_build_id info) (index_version info)
       (assign (index_params info) c_index_key c_index_value)
       (index_files info) (index info) (uri info)
       (index_store_version info) (index_engine_version info),
     None)) info.

(** [AppendFieldInfo]. *)
Definition AppendFieldInfo (info : LoadIndexInfo)
  (collection partition segment field : Z) (type : DataType)
  (mmap : bool) (dir : string) : CStatus * LoadIndexInfo :=
  try_catch (fun info =>
    (mkLoadIndexInfo collection partition segment field type mmap dir
       (index_id info) (index_build_id info) (index_version info)
       (index_params info) (index_files info) (index info) (uri info)
       (index_store_version info) (index_engine_version info),
     None)) info.

(** [AppendIndexFilePath]. *)
Definition AppendIndexFilePath (info : LoadIndexInfo) (c_file_path : string)
  : CStatus * LoadIndexInfo :=
  try_catch (fun info =>
    (mkLoadIndexInfo (collection_id info) (partition_id info)
       (segment_id info) (field_id info) (field_type info)
       (enable_mmap info) (mmap_dir_path info) (index_id info)
       (index_build_id info) (index_version info) (index_params info)
       (index_files info ++ [c_file_path])%list (index info) (uri info)
       (index_store_version info) (index_engine_version info),
     None)) info.

(** [AppendIndexInfo]. *)
Definition AppendIndexInfo (info : LoadIndexInfo) (id build version : Z)
  : CStatus * LoadIndexInfo :=
  try_catch (fun info =>
    (mkLoadIndexInfo (collection_id info) (partition_id info)
       (segment_id info) (field_id info) (field_type info)
       (enable_mmap info) (mmap_dir_path info) id build version
       (index_params info) (index_files info) (index info) (uri info)
       (index_store_version info) (index_engine_version info),
     None)) info.

(** [AppendIndexEngineVersionToLoadInfo]. *)
Definition AppendIndexEngineVersionToLoadInfo (info : LoadIndexInfo)
  (version : Z) : CStatus * LoadIndexInfo :=
  try_catch (fun info =>
    (mkLoadIndexInfo (collection_id info) (partition_id info)
       (segment_id info) (field_id info) (field_type info)
       (enable_mmap info) (mmap_dir_path info) (index_id info)
       (index_build_id info) (index_version info) (index_params info)
       (index_files info) (index info) (uri info)
       (index_store_version info) version,
     None)) info.

(** [AppendStorageInfo] (no [try] block, no status). *)
Definition AppendStorageInfo (info : LoadIndexInfo) (uri_ : string)
  (version : Z) : LoadIndexInfo :=
  mkLoadIndexInfo (collection_id info) (partition_id info)
    (segment_id info) (field_id info) (field_type info)
    (enable_mmap info) (mmap_dir_path info) (index_id info)
    (index_build_id info) (index_version info) (index_params info)
    (index_files info) (index info) uri_ version
    (index_engine_version info).

Definition field_meta_of (info : LoadIndexInfo) : FieldDataMeta :=
  mkFieldDataMeta (collection_id info) (partition_id info)
    (segment_id info) (field_id info).

Definition index_meta_of (info : LoadIndexInfo) : IndexMeta :=
  mkIndexMeta (segment_id info) (field_id info) (index_build_id info)
    (index_version info).

(** [load_index_info->index->Load...(...)]: the index object held by the
    info is the one the load worked on. *)
Definition after_load (info : LoadIndexInfo)
  (loaded : Index * option Exception) : LoadIndexInfo * option Exception :=
  (set_index info (fst loaded), snd loaded).

(** [appendVecIndex]. *)
Definition appendVecIndex (info : LoadIndexInfo) (binary_set : BinarySet)
  : CStatus * LoadIndexInfo :=
  try_catch (fun info =>
    match index_params info "index_type" with
    | None => (info, Some (AssertFailed "index type is empty"))
    | Some index_type =>
    match index_params info "metric_type" with
    | None => (info, Some (AssertFailed "metric type is empty"))
    | Some metric_type =>
        let index_info :=
          mkCreateIndexInfo (field_type info) index_type metric_type
            (Some (index_engine_version info)) in
        let config :=
          config_set (ParseConfigFromIndexParams env (index_params info))
            "index_files" (JStrings (index_files info)) in
        let context :=
          Context_ (field_meta_of info) (index_meta_of info)
            (Some (GetRemoteChunkManager env)) None in
        match CreateIndex env index_info context with
        | inl e => (info, Some e)
        | inr created =>
            after_load info
              (Load_binary env created binary_set (Some config))
        end
    end
    end) info.

(** [appendScalarIndex]. *)
Definition appendScalarIndex (info : LoadIndexInfo) (binary_set : BinarySet)
  : CStatus * LoadIndexInfo :=
  try_catch (fun info =>
    match index_params info "index_type" with
    | None =>
        (info, Some (AssertFailed "Can't find index type in index_params"))
    | Some index_type =>
        let index_info :=
          mkCreateIndexInfo (field_type info) index_type "" None in
        match CreateIndex env index_info NoContext with
        | inl e => (info, Some e)
        | inr created =>
            after_load info (Load_binary env created binary_set None)
        end
    end) info.

(** [AppendIndex]. *)
Definition AppendIndex (info : LoadIndexInfo) (binary_set : BinarySet)
  : CStatus * LoadIndexInfo :=
  if datatype_is_vector env (field_type info)
  then appendVecIndex info binary_set
  else appendScalarIndex info binary_set.

(** [AppendIndexV2]. *)
Definition AppendIndexV2 (info : LoadIndexInfo) : CStatus * LoadIndexInfo :=
  try_catch (fun info =>
    match index_params info "index_type" with
    | None => (info, Some (AssertFailed "index type is empty"))
    | Some index_type =>
    match (if datatype_is_vector env (field_type info)
           then index_params info "metric_type" else Some "") with
    | None =>
        (info, Some (AssertFailed "metric type is empty for vector index"))
    | Some metric_type =>
        let index_info :=
          mkCreateIndexInfo (field_type info) index_type metric_type
            (Some (index_engine_version info)) in
        let config :=
          config_set (ParseConfigFromIndexParams env (index_params info))
            "index_files" (JStrings (index_files info)) in
        let context :=
          Context_ (field_meta_of info) (index_meta_of info)
            (Some (GetRemoteChunkManager env)) None in
        match CreateIndex env index_info context with
        | inl e => (info, Some e)
        | inr created =>
            let info := set_index info created in
            if enable_mmap info && IsMmapSupported env created then
              if String.eqb (mmap_dir_path info) "" then
                (info, Some (AssertFailed "mmap directory path is empty"))
              else
                let config :=
                  config_set config (kMmapFilepath env)
                    (JString (mmap_filepath (mmap_dir_path info)
                                (segment_id info) (field_id info)
                                (index_id info))) in
                after_load info (Load env created config)
            else after_load info (Load env created config)
        end
    end
    end) info.

(** [AppendIndexV3]. *)
Definition AppendIndexV3 (info : LoadIndexInfo) : CStatus * LoadIndexInfo :=
  try_catch (fun info =>
    match index_params info "index_type" with
    | None => (info, Some (AssertFailed "index type is empty"))
    | Some index_type =>
    match (if datatype_is_vector env (field_type info)
           then index_params info "metric_type" else Some "") with
    | None =>
        (info, Some (AssertFailed "metric type is empty for vector index"))
    | Some metric_type =>
        let index_info :=
          mkCreateIndexInfo (field_type info) index_type metric_type None in
        let config := ParseConfigFromIndexParams env (index_params info) in
        match Space_Open env (uri info) (index_store_version info) with
        | None => (info, Some (AssertFailed "init space failed"))
        | Some space =>
            let context :=
              Context_ (field_meta_of info) (index_meta_of info) None
                (Some space) in
            match CreateIndex_space env index_info context space with
            | inl e => (info, Some e)
            | inr created =>
                let info := set_index info created in
                if negb (String.eqb (mmap_dir_path info) "")
                   && IsMmapSupported env created then
                  let config :=
                    config_set config (kMmapFilepath env)
                      (JString (mmap_filepath (mmap_dir_path info)
                                  (segment_id info) (field_id info)
                                  (index_id info))) in
                  after_load info (LoadV2 env created config)
                else after_load info (LoadV2 env created config)
            end
        end
    end
    end) info.

End WithCollaborators.

Arguments CreateIndexInfo DataType : clear implicits.
Arguments FileManagerContext ChunkManager Space : clear implicits.
Arguments LoadIndexInfo DataType Index : clear implicits.
Arguments Collaborators DataType Index BinarySet ChunkManager Space
  : clear implicits.

(** The info with its [index] pointer reset: what is left is every field
    the append functions must not write. *)
Definition clear_index {DataType Index : Type}
  (info : LoadIndexInfo DataType Index) : LoadIndexInfo DataType Index :=
  mkLoadIndexInfo (collection_id info) (partition_id info) (segment_id info)
    (field_id info) (field_type info) (enable_mmap info)
    (mmap_dir_path info) (index_id info) (index_build_id info)
    (index_version info) (index_params info) (index_files info) None
    (uri info) (index_store_version info) (index_engine_version info).


Definition with_mmap_dir_path {DataType Index : Type}
  (info : LoadIndexInfo DataType Index) (dir : string)
  : LoadIndexInfo DataType Index :=
  mkLoadIndexInfo (collection_id info) (partition_id info) (segment_id info)
    (field_id info) (field_type info) (enable_mmap info)
    dir (index_id info) (index_build_id info)
    (index_version info) (index_params info) (index_files info)
    (index info) (uri info) (index_store_version info)
    (index_engine_version info).

(** [AppendIndexFilePath] called once per path, in order; the statuses
    are collected. *)
Fixpoint append_file_paths {DataType Index : Type}
  (info : LoadIndexInfo DataType Index) (paths : list string)
  : list CStatus * LoadIndexInfo DataType Index :=
  match paths with
  | nil => (nil, info)
  | cons path rest =>
      let '(status, info) := AppendIndexFilePath info path in
      let '(statuses, info) := append_file_paths info rest in
      (cons status statuses, info)
  end.

(** [AppendIndexParam] called once per (key, value), in order. *)
Fixpoint append_params {DataType Index : Type}
  (info : LoadIndexInfo DataType Index) (pairs : list (string * string))
  : list CStatus * LoadIndexInfo DataType Index :=
  match pairs with
  | nil => (nil, info)
  | cons (key, value) rest =>
      let '(status, info) := AppendIndexParam info key value in
      let '(statuses, info) := append_params info rest in
      (cons status statuses, info)
  end.

(** The value the last pair with a given key carries. *)
Fixpoint last_binding (pairs : list (string * string)) (key : string)
  : option string :=
  match pairs with
  | nil => None
  | cons (k, v) rest =>
      match last_binding rest key with
      | Some later => Some later
      | None => if String.eqb k key then Some v else None
      end
  end.

(** What the append functions demand of the parameters: an index type,
    and a metric type when the field is a vector. *)
Definition requirements_met {DataType Index BinarySet ChunkManager Space}
  (env : Collaborators DataType Index BinarySet ChunkManager Space)
  (info : LoadIndexInfo DataType Index) : Prop :=
  index_params info "index_type" <> None /\
  (datatype_is_vector env (field_type info) = true ->
   index_params info "metric_type" <> None).

(** The messages of the [AssertInfo]s of lines 107-354. *)
Definition assertion_messages : list string :=
  cons "index type is empty"
    (cons "metric type is empty"
       (cons "Can't find index type in index_params"
          (cons "metric type is empty for vector index"
             (cons "mmap directory path is empty"
                (cons "init space failed" nil))))).

(** What the [catch] of an append function can see: one of the failed
    assertions of these functions, or an exception that a collaborator
    raised on some arguments. *)
Definition thrown {DataType Index BinarySet ChunkManager Space}
  (env : Collaborators DataType Index BinarySet ChunkManager Space)
  (e : Exception) : Prop :=
  (exists msg, e = AssertFailed msg /\ In msg assertion_messages) \/
  (exists i c, CreateIndex env i c = inl e) \/
  (exists i c s, CreateIndex_space env i c s = inl e) \/
  (exists i b c, snd (Load_binary env i b c) = Some e) \/
  (exists i c, snd (Load env i c) = Some e) \/
  (exists i c, snd (LoadV2 env i c) = Some e).

(** What a status and info returned by an append function must satisfy:
    success only with the requirements met and an index stored, failure
    always with the message of the exception that was thrown. *)
Definition sound_outcome {DataType Index BinarySet ChunkManager Space}
  (env : Collaborators DataType Index BinarySet ChunkManager Space)
  (info : LoadIndexInfo DataType Index)
  (r : CStatus * LoadIndexInfo DataType Index) : Prop :=
  match error_code (fst r) with
  | Success =>
      error_msg (fst r) = None /\ requirements_met env info /\
      index (snd r) <> None
  | UnexpectedError_code =>
      exists e, fst r = failure e /\ thrown env e
  end.

(** Collaborators for the examples: a field type is [true] for a vector,
    an index is a description of how it was made and loaded. *)
Definition test_env : Collaborators bool string unit unit unit :=
  {| datatype_is_vector := fun t => t;
     kMmapFilepath := "mmap_filepath";
     GetRemoteChunkManager := tt;
     ParseConfigFromIndexParams := fun p k => option_map JString (p k);
     CreateIndex := fun info _ => inr (ci_index_type info);
     CreateIndex_space := fun info _ _ => inr (ci_index_type info);
     IsMmapSupported := fun _ => true;
     Load_binary := fun i _ _ => (i ++ " loaded", None);
     Load := fun i c =>
       (match c "mmap_filepath" with
        | Some (JString path) => i ++ " mapped at " ++ path
        | _ => i ++ " loaded"
        end, None);
     LoadV2 := fun i c =>
       (match c "mmap_filepath" with
        | Some (JString path) => i ++ " mapped at " ++ path
        | _ => i ++ " loaded"
        end, None);
     Space_Open := fun _ _ => Some tt |}.

(** A vector field of segment 12, field 101, index 7, with the given
    parameters, mmap switch and directory. *)
Definition test_info (params : Params) (mmap : bool) (dir : string)
  : LoadIndexInfo bool string :=
  mkLoadIndexInfo 1 2 12 101 true mmap dir 7 70 1 params nil None "" 0 3.

(** A directory with the separator [operator/] puts after it. *)
Definition as_directory (p : string) : string :=
  if has_filename p then p ++ "/" else p.

(** The characters of a decimal rendering. *)
Fixpoint no_separator (s : string) : bool :=
  match s with
  | EmptyString => true
  | String c rest => negb (Ascii.eqb c "/") && no_separator rest
  end.

End LoadIndex.

(** ** Theorems *)

Module SchedulerFacts.
Import Scheduler.
Local Open Scope string_scope.
Local Open Scope list_scope.

Lemma to_string_inj (a b : Z) : to_string a = to_string b -> a = b.
Proof.
  unfold to_string. intros H.
  apply DecimalZ.to_int_inj.
  assert (S : Some (Z.to_int a) = Some (Z.to_int b)).
  { rewrite <- (NilEmpty.isi (Z.to_int a)), <- (NilEmpty.isi (Z.to_int b)).
    now rewrite H. }
  now inversion S.
Qed.

Lemma to_string_not_word (z : Z) (s : string) :
  NilEmpty.int_of_string s = None -> to_string z <> s.
Proof.
  intros Hs E. unfold to_string in E.
  rewrite <- E, NilEmpty.isi in Hs. discriminate.
Qed.

Lemma find_gpu_id_In (gpu_ids : list Z) (build_id : Z) :
  find_gpu_id gpu_ids build_id = true <-> In build_id gpu_ids.
Proof.
  induction gpu_ids as [|g rest IH]; simpl.
  - split; [discriminate | tauto].
  - destruct (Z.eqb_spec g build_id) as [->|Hne].
    + split; auto.
    + rewrite IH. split; [auto | intros [E|E]; [contradiction | exact E]].
Qed.

Lemma not_find_build_ids_filter (gpu_ids build_gpu_ids : list Z) :
  not_find_build_ids gpu_ids build_gpu_ids =
  filter (fun b => negb (find_gpu_id gpu_ids b)) build_gpu_ids.
Proof.
  induction build_gpu_ids as [|b rest IH]; simpl; [reflexivity|].
  destruct (find_gpu_id gpu_ids b); simpl; now rewrite IH.
Qed.

Lemma In_not_find_build_ids (gpu_ids build_gpu_ids : list Z) (x : Z) :
  In x (not_find_build_ids gpu_ids build_gpu_ids) <->
  In x build_gpu_ids /\ ~ In x gpu_ids.
Proof.
  rewrite not_find_build_ids_filter, filter_In, negb_true_iff.
  pose proof (find_gpu_id_In gpu_ids x) as F.
  destruct (find_gpu_id gpu_ids x); intuition congruence.
Qed.

Lemma added_app (c1 c2 : list Call) :
  added (c1 ++ c2) = (added c1 ++ added c2)%list.
Proof.
  induction c1 as [|[r|a b c] rest IH]; simpl; now rewrite ?IH.
Qed.

Lemma added_add_gpu (pcie : Connection) (ids : list Z) :
  added (flat_map (add_gpu pcie) ids) =
  map (fun id => mkResource (to_string id) "GPU" id true true) ids.
Proof.
  induction ids as [|i rest IH]; simpl; now rewrite ?IH.
Qed.

Lemma added_load_simple_config (g b : list Z) :
  added (load_simple_config g b) =
  mkResource "disk" "DISK" 0 true false
  :: mkResource "cpu" "CPU" 0 true true
  :: map (fun id => mkResource (to_string id) "GPU" id true true)
         (g ++ not_find_build_ids g b).
Proof.
  unfold load_simple_config. simpl.
  now rewrite added_app, !added_add_gpu, map_app.
Qed.

Lemma added_gpu_ids_load_simple_config (g b : list Z) :
  added_gpu_ids (load_simple_config g b) = (g ++ not_find_build_ids g b)%list.
Proof.
  unfold added_gpu_ids. rewrite added_load_simple_config. simpl.
  induction (g ++ not_find_build_ids g b) as [|i rest IH]; simpl;
    now rewrite ?IH.
Qed.

Lemma added_names_load_simple_config (g b : list Z) :
  added_names (load_simple_config g b) =
  "disk" :: "cpu" :: map to_string (g ++ not_find_build_ids g b).
Proof.
  unfold added_names. rewrite added_load_simple_config. simpl.
  now rewrite map_map.
Qed.

Lemma NoDup_pools (g b : list Z) :
  NoDup g -> NoDup b -> NoDup (g ++ not_find_build_ids g b).
Proof.
  intros Hg Hb. apply NoDup_app; [exact Hg | |].
  - rewrite not_find_build_ids_filter. now apply NoDup_filter.
  - intros a Ha Hin. apply In_not_find_build_ids in Hin. tauto.
Qed.

(** C9, as stated, fails: an id listed twice in the search pool is added
    twice, and so is an id listed twice in the build pool only.  The filter
    of lines 68-80 compares build ids with search ids and nothing else. *)
Lemma C9_repeated_id_added_twice :
  added_names (load_simple_config [0; 0] []) = ["disk"; "cpu"; "0"; "0"] /\
  added_names (load_simple_config [] [1; 1]) = ["disk"; "cpu"; "1"; "1"] /\
  ~ one_add_per_device [0; 0] [] /\
  ~ one_add_per_device [] [1; 1].
Proof.
  repeat split; try reflexivity.
  - intros [H _]. vm_compute in H.
    inversion H as [|? ? _ K1]; inversion K1 as [|? ? _ K2];
      inversion K2 as [|? ? N _]. apply N. now left.
  - intros [H _]. vm_compute in H.
    inversion H as [|? ? _ K1]; inversion K1 as [|? ? _ K2];
      inversion K2 as [|? ? N _]. apply N. now left.
Qed.

(** C9 (amended): when neither pool lists an id twice, [load_simple_config]
    never hands [ResourceMgr::Add] the same name twice, and the GPU
    resources it adds are exactly one per distinct device id of the union
    of the two pools: the search ids in order, then the build ids that are
    not search ids. *)
Theorem C9_one_add_per_distinct_id (gpu_ids build_gpu_ids : list Z) :
  NoDup gpu_ids -> NoDup build_gpu_ids ->
  one_add_per_device gpu_ids build_gpu_ids /\
  added_gpu_ids (load_simple_config gpu_ids build_gpu_ids) =
    (gpu_ids ++
     filter (fun b => negb (find_gpu_id gpu_ids b)) build_gpu_ids)%list.
Proof.
  intros Hg Hb. unfold one_add_per_device. cbv zeta.
  rewrite added_names_load_simple_config, added_gpu_ids_load_simple_config.
  pose proof (NoDup_pools _ _ Hg Hb) as Hnd.
  repeat split.
  - assert (Hm : NoDup (map to_string
                          (gpu_ids ++
                           not_find_build_ids gpu_ids build_gpu_ids))).
    { apply NoDup_map_NoDup_ForallPairs; [|exact Hnd].
      intros x y _ _. apply to_string_inj. }
    constructor; [|constructor; [|exact Hm]].
    + intros [E|E]; [discriminate|].
      apply in_map_iff in E. destruct E as (z & E & _).
      now apply (to_string_not_word z "disk").
    + intros E. apply in_map_iff in E. destruct E as (z & E & _).
      now apply (to_string_not_word z "cpu").
  - exact Hnd.
  - rewrite in_app_iff, In_not_find_build_ids. tauto.
  - rewrite in_app_iff, In_not_find_build_ids. intros [H|H]; [now left|].
    destruct (in_dec Z.eq_dec id gpu_ids); [now left | now right].
  - now rewrite not_find_build_ids_filter.
Qed.

Lemma C9_one_add_per_distinct_id_witness :
  one_add_per_device [0; 1] [1; 2] /\
  added_gpu_ids (load_simple_config [0; 1] [1; 2]) = [0; 1; 2].
Proof.
  destruct (C9_one_add_per_distinct_id [0; 1] [1; 2]) as [H1 H2].
  - repeat constructor; simpl; intuition discriminate.
  - repeat constructor; simpl; intuition discriminate.
  - split; [exact H1 | reflexivity].
Defined.

End SchedulerFacts.

Module SimdFacts.
Import Simd.

Ltac case_cpu cpu :=
  destruct cpu as [f dq bw a2 s42 s2];
  destruct f, dq, bw, a2, s42, s2.

(** C8, as stated, fails: on an x86-64 CPU with every feature, only the
    [find_term_*] and [and_bool]/[or_bool] pointers get the AVX-512 kernels;
    [get_bitset_block], [all_true], [all_false] and [invert_bool] are bound
    to SSE2 kernels.  On ARM, [get_bitset_block] and [find_term_*] keep the
    reference kernels. *)
Lemma C8_not_always_highest :
  highest_available x86_64 cpu_all = KAVX512 /\
  binding sym_get_bitset_block (after_init x86_64 cpu_all) = KSSE2 /\
  binding sym_all_true (after_init x86_64 cpu_all) = KSSE2 /\
  binding sym_invert_bool (after_init x86_64 cpu_all) = KSSE2 /\
  binding sym_get_bitset_block (after_init ARM_NEON cpu_all) = KRef /\
  ~ (forall t cpu s,
       binding s (after_init t cpu) = highest_available t cpu).
Proof.
  repeat split.
  intros H. specialize (H x86_64 cpu_all sym_get_bitset_block).
  discriminate H.
Qed.

(** C8 (amended): after the one-time initialisation, on x86-64 every
    [find_term_*] symbol is bound to the kernel of the highest feature set
    available in the order AVX-512F+DQ+BW, AVX2, SSE4.2, SSE2, reference;
    [and_bool] and [or_bool] follow the order AVX-512, AVX2, SSE2, reference;
    [get_bitset_block] is bound to the SSE2 kernel when any of the four
    feature sets is available and to the reference one otherwise;
    [all_true], [all_false] and [invert_bool] are bound to the SSE2 kernel
    when SSE2 is available and to the reference one otherwise.  On ARM with
    NEON the five boolean symbols are bound to the NEON kernels and
    [get_bitset_block] and [find_term_*] stay on the reference kernels.
    Running the initialisation again changes none of the globals. *)
Theorem C8_dispatch_table (t : Target) (cpu : InstructionSet) :
  (forall s, binding s (after_init t cpu) = installed s t cpu) /\
  Forall (fun s => binding s (after_init x86_64 cpu) =
                   highest_available x86_64 cpu) find_term_symbols /\
  init_hook_ t cpu (after_init t cpu) = after_init t cpu.
Proof.
  split; [|split].
  - intros s. destruct t, s; case_cpu cpu; reflexivity.
  - repeat constructor; case_cpu cpu; reflexivity.
  - destruct t; case_cpu cpu; reflexivity.
Qed.

End SimdFacts.

Module ConjunctFacts.
Import Conjunct.

Lemma expect_BOOLEAN_ok (inputs : list DataType) :
  expect_BOOLEAN inputs = Ok tt <-> Forall (fun t => t = BOOL) inputs.
Proof.
  induction inputs as [|t rest IH]; simpl.
  - split; auto.
  - destruct t; simpl; rewrite ?IH; split; intros H;
      try discriminate H; try (inversion H; subst; auto; discriminate);
      constructor; auto.
Qed.

Lemma expect_BOOLEAN_err (inputs : list DataType) :
  expect_BOOLEAN inputs = Err AssertViolation <->
  Exists (fun t => t <> BOOL) inputs.
Proof.
  induction inputs as [|t rest IH]; simpl.
  - split; [discriminate | intros H; inversion H].
  - destruct t; simpl; rewrite ?IH; split; intros H;
      try (inversion H; subst; auto; congruence);
      try (constructor 2; exact H);
      try reflexivity;
      constructor 1; discriminate.
Qed.

(** C7: [ResolveType] fails, with the assertion failure of [AssertInfo],
    exactly when the list of input types is empty or holds a type other than
    BOOL; it returns BOOL exactly when the list is non-empty and all BOOL.
    It reads the types only, so it is decided before any child is
    evaluated. *)
Theorem C7_ResolveType_bool_only (inputs : list DataType) :
  (ResolveType inputs = Err AssertViolation <->
     inputs = [] \/ Exists (fun t => t <> BOOL) inputs) /\
  (ResolveType inputs = Ok BOOL <->
     inputs <> [] /\ Forall (fun t => t = BOOL) inputs) /\
  (ResolveType inputs = Ok BOOL \/ ResolveType inputs = Err AssertViolation).
Proof.
  unfold ResolveType. destruct inputs as [|t rest].
  - simpl. repeat split; auto; try discriminate.
    + intros [H _]. congruence.
  - assert (L : (0 <? Z.of_nat (List.length (t :: rest))) = true).
    { apply Z.ltb_lt. simpl List.length. lia. }
    rewrite L. cbn [AssertInfo bindE].
    pose proof (expect_BOOLEAN_ok (t :: rest)) as HO.
    pose proof (expect_BOOLEAN_err (t :: rest)) as HE.
    destruct (expect_BOOLEAN (t :: rest)) as [[]|e] eqn:E; cbn [bindE].
    + repeat split; auto; try discriminate.
      * intros [H|H]; [discriminate | now apply HE in H].
      * now apply HO.
    + assert (e = AssertViolation) as ->.
      { clear -E. revert E. induction (t :: rest) as [|x l IH]; simpl.
        - discriminate.
        - destruct x; simpl; auto; congruence. }
      repeat split; auto; try discriminate.
      * intros _. right. now apply HE.
      * intros [_ H]. apply HO in H. discriminate.
Qed.

Lemma CanSkipNextExprs_dominated (is_and : bool) (data : list bool) :
  CanSkipNextExprs is_and data = dominated is_and data.
Proof.
  unfold CanSkipNextExprs, dominated.
  destruct is_and; simpl; [destruct (AllFalse data) | destruct (AllTrue data)];
    reflexivity.
Qed.

Lemma ConjunctElementFunc_dominated (is_and : bool) (input res : list bool) :
  dominated is_and (fst (ConjunctElementFunc is_and input res)) = true ->
  snd (ConjunctElementFunc is_and input res) = 0.
Proof.
  revert res. induction input as [|i input IH]; intros res; simpl.
  - reflexivity.
  - destruct res as [|r res]; simpl; [reflexivity|].
    specialize (IH res).
    destruct (ConjunctElementFunc is_and input res) as [out n]. simpl in *.
    destruct is_and; simpl.
    + destruct (r && i); simpl; [discriminate | exact IH].
    + destruct (r || i); simpl; [exact IH | discriminate].
Qed.

Lemma UpdateResult_dominated (is_and : bool) (input res : list bool) :
  dominated is_and (fst (UpdateResult is_and input res)) = true ->
  snd (UpdateResult is_and input res) = 0.
Proof.
  unfold UpdateResult. destruct is_and; apply ConjunctElementFunc_dominated.
Qed.

Lemma GetColumnVector_store_column (result : VectorPtr) (old new : list bool) :
  GetColumnVector result = Ok old ->
  GetColumnVector (store_column result new) = Ok new.
Proof.
  destruct result as [[raw|[|[raw| |] others]|]|]; simpl;
    try discriminate; reflexivity.
Qed.

Section Stops.

Variable EvalCtx : Type.
Variable is_and : bool.

(** Once the loop has returned a dominated vector, children appended to
    the list are never reached. *)
Lemma Eval_from_stops (post : list (Expr EvalCtx)) :
  forall (pre : list (Expr EvalCtx)) (i : Z) (context : EvalCtx)
         (result v : VectorPtr) (context' : EvalCtx) (data : list bool),
    pre <> [] ->
    Eval_from is_and pre i context result = Ok (v, context') ->
    GetColumnVector v = Ok data ->
    dominated is_and data = true ->
    Eval_from is_and (pre ++ post) i context result = Ok (v, context').
Proof.
  induction pre as [|input pre IH]; intros i context result v context' data
    Hne Hrun Hcol Hdom; [congruence|].
  simpl in *.
  destruct (input context) as [[input_result ctx1]|e]; simpl in *;
    [|discriminate].
  destruct (i =? 0).
  - destruct (GetColumnVector input_result) as [flat|e] eqn:G; simpl in *;
      [|discriminate].
    rewrite CanSkipNextExprs_dominated in *.
    destruct (dominated is_and flat) eqn:D; [exact Hrun|].
    destruct pre as [|next pre].
    + simpl in Hrun. inversion Hrun; subst. congruence.
    + apply IH with (data := data); auto. discriminate.
  - destruct (GetColumnVector input_result) as [iflat|e]; simpl in *;
      [|discriminate].
    destruct (GetColumnVector result) as [aflat|e] eqn:G; simpl in *;
      [|discriminate].
    pose proof (UpdateResult_dominated is_and iflat aflat) as U.
    destruct (UpdateResult is_and iflat aflat) as [combined active].
    simpl in U.
    destruct (active =? 0) eqn:A; [exact Hrun|].
    destruct pre as [|next pre].
    + simpl in Hrun. inversion Hrun; subst.
      rewrite (GetColumnVector_store_column _ _ combined G) in Hcol.
      inversion Hcol; subst. apply U in Hdom. subst. discriminate.
    + apply IH with (data := data); auto. discriminate.
Qed.

End Stops.

(** C2: under AND, when the first child evaluates to an all-false vector
    [Eval] returns that vector and the context the first child left, so no
    other child ran; dually under OR with an all-true first child.  For
    later children: once the loop over a non-empty prefix of the children
    has produced a dominated running result (all-false for AND, all-true for
    OR), the children after that prefix are never evaluated. *)
Theorem C2_short_circuit (EvalCtx : Type) :
  (forall (c1 : Expr EvalCtx) rest context result v context' data,
     c1 context = Ok (v, context') ->
     GetColumnVector v = Ok data ->
     AllFalse data = true ->
     Eval true (c1 :: rest) context result = Ok (v, context')) /\
  (forall (c1 : Expr EvalCtx) rest context result v context' data,
     c1 context = Ok (v, context') ->
     GetColumnVector v = Ok data ->
     AllTrue data = true ->
     Eval false (c1 :: rest) context result = Ok (v, context')) /\
  (forall is_and (pre post : list (Expr EvalCtx)) context result
          v context' data,
     pre <> [] ->
     Eval is_and pre context result = Ok (v, context') ->
     GetColumnVector v = Ok data ->
     dominated is_and data = true ->
     Eval is_and (pre ++ post) context result = Ok (v, context')).
Proof.
  split; [|split].
  - intros c1 rest context result v context' data H1 G D.
    unfold Eval. simpl. rewrite H1. simpl. rewrite G. simpl.
    unfold CanSkipNextExprs. rewrite D. reflexivity.
  - intros c1 rest context result v context' data H1 G D.
    unfold Eval. simpl. rewrite H1. simpl. rewrite G. simpl.
    unfold CanSkipNextExprs. rewrite D. reflexivity.
  - intros is_and pre post context result v context' data Hne Hrun G D.
    unfold Eval in *. now apply Eval_from_stops with (data := data).
Qed.

(** Scenario S2 and its OR and later-child variants: the read counter shows
    which columns were touched. *)
Lemma C2_short_circuit_witness :
  Eval true [greater_than age 100; greater_than salary 0] 0%nat None =
    Ok (Some (ColumnVector (BoolData [false; false; false; false])), 1%nat)
  /\
  Eval false [greater_than age 10; greater_than salary 0] 0%nat None =
    Ok (Some (ColumnVector (BoolData [true; true; true; true])), 1%nat)
  /\
  Eval true ([greater_than age 25; greater_than salary 5000]
             ++ [greater_than age 0]) 0%nat None =
    Ok (Some (ColumnVector (BoolData [false; false; false; false])), 2%nat).
Proof.
  destruct (C2_short_circuit nat) as (Hand & Hor & Hlater).
  split; [|split].
  - apply Hand with (data := [false; false; false; false]); reflexivity.
  - apply Hor with (data := [true; true; true; true]); reflexivity.
  - apply Hlater with (data := [false; false; false; false]);
      [discriminate | reflexivity | reflexivity | reflexivity].
Defined.

End ConjunctFacts.

Module ExecutorFacts.
Import Executor.

(** Unfolds the executor monad down to matches on [ErrorOr]. *)
Ltac run := unfold bind, call, ret, lift; cbn [app bindE].

Lemma flip_length (b : BitsetType) : List.length (flip b) = List.length b.
Proof. unfold flip. apply length_map. Qed.

Lemma resize_nil (n : Z) : resize [] n = zeros n.
Proof.
  unfold resize, zeros. rewrite firstn_nil. simpl.
  now rewrite Nat.sub_0_r.
Qed.

Lemma all_nil_or_set (b : BitsetType) : all b = false -> b <> [].
Proof. intros H E. subst b. discriminate H. Qed.

Lemma count_le_size (b : BitsetType) : 0 <= count b <= size b.
Proof.
  unfold count, size. split; [lia|].
  apply inj_le. apply filter_length_le.
Qed.

Lemma append_result_spec (childrens : list Vector) (data : list bool)
  (b : BitsetType) (g : bool) (c : list Z) :
  chunk_bools childrens = Some data ->
  append_result childrens (mkExprOut b g c) =
  Ok (mkExprOut (b ++ data)
                (g || is_some (chunk_offsets childrens))
                (if g then c else c ++ new_offsets (chunk_offsets childrens))).
Proof.
  intros H. unfold chunk_bools in H.
  repeat match type of H with
         | context [match ?x with _ => _ end] =>
             is_var x; destruct x; try discriminate H
         end;
    injection H as <-; unfold append_result; simpl;
    destruct g; simpl; rewrite ?app_nil_r; reflexivity.
Qed.

Lemma drain_spec (results : list (list Vector)) :
  forall (bits b : BitsetType) (g : bool) (c : list Z),
    filter_bits results = Some bits ->
    drain results (mkExprOut b g c) =
    Ok (mkExprOut (b ++ bits)
                  (g || is_some (materialized_offsets results))
                  (if g then c
                   else c ++ new_offsets (materialized_offsets results))).
Proof.
  induction results as [|childrens rest IH]; intros bits b g c H; simpl in *.
  - injection H as <-. rewrite orb_false_r, !app_nil_r. now destruct g.
  - destruct (chunk_bools childrens) as [data|] eqn:Hc; [|discriminate].
    destruct (filter_bits rest) as [bits'|] eqn:Hr; [|discriminate].
    injection H as <-.
    rewrite (append_result_spec _ _ _ _ _ Hc). cbn [bindE].
    rewrite (IH bits' _ _ _ eq_refl). rewrite <- app_assoc.
    destruct g, (chunk_offsets childrens) as [o|]; simpl;
      try reflexivity.
    now rewrite app_nil_r.
Qed.

Section Paths.

Context {PlanNode : Type}.
Variable segment : SegmentInternalInterface PlanNode.
Variable ts : Timestamp.

Lemma ExecuteExprNodeInternal_spec (plannode : PlanNode)
  (b0 bits : BitsetType) (log : list (Event PlanNode)) :
  filter_bits (task_results segment plannode ts) = Some bits ->
  ExecuteExprNodeInternal segment ts plannode (mkExprOut b0 false []) log =
  Ok (mkExprOut bits
        (is_some (materialized_offsets (task_results segment plannode ts)))
        (new_offsets (materialized_offsets (task_results segment plannode ts))),
      log ++ [EvTask plannode ts]).
Proof.
  intros H. unfold ExecuteExprNodeInternal. run. simpl.
  now rewrite (drain_spec _ bits [] false [] H).
Qed.

(** C6: on a segment with no active row the ANN executor makes one call,
    [get_active_count], builds no bitset, does not reach [vector_search],
    and returns a result with [total_nq_] = nq, [unity_topK_] = top_k,
    nq x top_k offsets all -1 and as many distances all equal to the
    sentinel of the metric. *)
Theorem C6_ann_empty_segment (ph : Placeholder) (others : PlaceholderGroup)
  (node : VectorPlanNode PlanNode) :
  get_active_count segment ts = 0 ->
  let nq := num_of_queries_ ph in
  let info := search_info_ node in
  exists result,
    VectorVisitorImpl segment ts (ph :: others) node [] =
      Ok (result, [EvGetActiveCount ts]) /\
    total_nq_ result = nq /\
    unity_topK_ result = topk_ info /\
    List.length (seg_offsets_ result) = Z.to_nat (nq * topk_ info) /\
    Forall (fun offset => offset = -1) (seg_offsets_ result) /\
    List.length (distances_ result) = Z.to_nat (nq * topk_ info) /\
    Forall (fun d => d = sentinel (metric_type_ info)) (distances_ result).
Proof.
  intros H nq info.
  exists (empty_search_result nq info).
  split.
  - unfold VectorVisitorImpl. run. simpl. rewrite H. reflexivity.
  - simpl. rewrite !repeat_length. repeat split;
      apply Forall_forall; intros x Hx; now apply repeat_spec in Hx.
Qed.

(** C1: on a segment with active rows and a plan with a filter whose task
    results are well formed, the ANN executor runs the filter task to
    completion, flips the accumulated bitset, applies
    [mask_with_timestamps] and then [mask_with_delete] to it; when every bit
    of the outcome is set it returns the empty result and makes no further
    call, and otherwise it returns what [vector_search] gives for that
    bitset. *)
Theorem C1_ann_filter_path (ph : Placeholder) (others : PlaceholderGroup)
  (node : VectorPlanNode PlanNode) (plannode : PlanNode)
  (expr_res : BitsetType) :
  filter_plannode_ node = Some plannode ->
  0 < get_active_count segment ts ->
  filter_bits (task_results segment plannode ts) = Some expr_res ->
  let n := get_active_count segment ts in
  let nq := num_of_queries_ ph in
  let info := search_info_ node in
  let flipped := flip expr_res in
  let stamped := mask_with_timestamps segment flipped ts in
  let masked := mask_with_delete segment stamped n ts in
  let calls := [ EvGetActiveCount ts; EvTask plannode ts;
                 EvMaskWithTimestamps flipped ts;
                 EvMaskWithDelete stamped n ts ] in
  VectorVisitorImpl segment ts (ph :: others) node [] =
    if all masked
    then Ok (empty_search_result nq info, calls)
    else Ok (vector_search segment info (blob_ ph) nq ts masked,
             calls ++ [EvVectorSearch info (blob_ ph) nq ts masked]).
Proof.
  intros Hf Hn Hbits n nq info flipped stamped masked calls.
  unfold VectorVisitorImpl. run. simpl.
  destruct (Z.eqb_spec (get_active_count segment ts) 0) as [E|_]; [lia|].
  rewrite Hf. unfold ExecuteExprNode. run.
  rewrite (ExecuteExprNodeInternal_spec plannode [] expr_res _ Hbits).
  simpl. fold n flipped stamped masked.
  destruct (all masked); reflexivity.
Qed.

(** The retrieve path on a segment with active rows, branch by branch. *)
Lemma visit_spec (node : RetrievePlanNode PlanNode)
  (yielded : option BitsetType) :
  get_active_count segment ts <> 0 ->
  filter_yields segment ts (retrieve_filter_plannode_ node) yielded ->
  let n := get_active_count segment ts in
  let filter := retrieve_filter_plannode_ node in
  let b0 := retrieve_bitset yielded (is_count_ node) n in
  let stamped := mask_with_timestamps segment b0 ts in
  let masked := mask_with_delete segment stamped n ts in
  let calls := [EvGetActiveCount ts] ++ filter_calls ts filter ++
               [EvMaskWithTimestamps b0 ts; EvMaskWithDelete stamped n ts] in
  visit segment ts node [] =
    if all masked && negb (is_count_ node) then
      Ok (RetrieveResult_new, calls)
    else if is_count_ node then
      Ok (wrap_num_entities (size masked - count masked), calls)
    else
      match filter_offsets segment ts filter with
      | Some offsets =>
          let final := timestamp_filter_offsets segment masked offsets ts in
          Ok (mkRetrieveResult [] (find_first segment (limit_ node) final
                                              false),
              calls ++ [EvTimestampFilterOffsets masked offsets ts;
                        EvFindFirst (limit_ node) final false])
      | None =>
          let final := timestamp_filter segment (flip masked) ts in
          Ok (mkRetrieveResult [] (find_first segment (limit_ node) final
                                              true),
              calls ++ [EvTimestampFilter (flip masked) ts;
                        EvFindFirst (limit_ node) final true])
      end.
Proof.
  intros Hn Hy n filter b0 stamped masked calls.
  unfold visit. run. simpl.
  destruct (Z.eqb_spec (get_active_count segment ts) 0) as [E|_];
    [contradiction|]. simpl.
  subst calls masked stamped b0 filter n.
  destruct node as [[plannode|] limit is_count]; simpl in *.
  - destruct yielded as [bits|]; [|contradiction].
    rewrite (ExecuteExprNodeInternal_spec plannode _ bits _ Hy). simpl.
    destruct (all _); simpl;
      destruct is_count; simpl; try reflexivity;
      destruct (materialized_offsets _); reflexivity.
  - destruct yielded as [bits|]; [contradiction|]. simpl.
    destruct is_count; simpl.
    + rewrite resize_nil, andb_false_r. reflexivity.
    + rewrite andb_true_r. destruct (all _); reflexivity.
Qed.

Lemma masked_size (node : RetrievePlanNode PlanNode)
  (yielded : option BitsetType) :
  0 < get_active_count segment ts ->
  masks_keep_length segment ->
  (forall bits, yielded = Some bits ->
     size bits = get_active_count segment ts) ->
  let n := get_active_count segment ts in
  let b0 := retrieve_bitset yielded true n in
  size (mask_with_delete segment (mask_with_timestamps segment b0 ts) n ts)
  = n.
Proof.
  intros Hn [Ht Hd] Hbits n b0. unfold size.
  rewrite Hd, Ht. subst b0. destruct yielded as [bits|]; simpl.
  - rewrite flip_length. now apply Hbits.
  - unfold zeros. rewrite repeat_length. subst n. lia.
Qed.

(** C3: a retrieve plan with [is_count_] set, on a segment with n > 0
    active rows whose filter (if any) yields n bits and whose masks keep the
    length of the bitset, returns the single Int64 value n minus the number
    of set bits of the bitset after [mask_with_timestamps] and
    [mask_with_delete]. *)
Theorem C3_retrieve_count (node : RetrievePlanNode PlanNode)
  (yielded : option BitsetType) :
  is_count_ node = true ->
  0 < get_active_count segment ts ->
  masks_keep_length segment ->
  filter_yields segment ts (retrieve_filter_plannode_ node) yielded ->
  (forall bits, yielded = Some bits ->
     size bits = get_active_count segment ts) ->
  let n := get_active_count segment ts in
  let b0 := retrieve_bitset yielded true n in
  let masked :=
    mask_with_delete segment (mask_with_timestamps segment b0 ts) n ts in
  returned (visit segment ts node []) =
    Some {| field_data_ := [ {| type := Int64;
                                long_data := [n - count masked] |} ];
            result_offsets_ := [] |}.
Proof.
  intros Hc Hn Hk Hy Hbits n b0 masked.
  rewrite (visit_spec node yielded); [|lia|exact Hy].
  rewrite Hc, andb_false_r. cbn [negb returned].
  fold n b0 masked.
  pose proof (masked_size node yielded Hn Hk Hbits) as S. cbv zeta in S.
  fold n b0 masked in S. rewrite S. reflexivity.
Qed.

(** C4 (amended): when [is_count_] is set, the count is computed and
    returned after [mask_with_timestamps] and [mask_with_delete] have been
    called, in that order, on the flipped filter bitset (or on the all-zero
    bitset of length n when there is no filter); the counted bitset is the
    one [mask_with_delete] left, with the timestamp and delete exclusions in
    it, and the count is its size minus its number of set bits. *)
Theorem C4_count_after_masks (node : RetrievePlanNode PlanNode)
  (yielded : option BitsetType) :
  is_count_ node = true ->
  get_active_count segment ts <> 0 ->
  filter_yields segment ts (retrieve_filter_plannode_ node) yielded ->
  let n := get_active_count segment ts in
  let b0 := retrieve_bitset yielded true n in
  let stamped := mask_with_timestamps segment b0 ts in
  let masked := mask_with_delete segment stamped n ts in
  visit segment ts node [] =
    Ok (wrap_num_entities (size masked - count masked),
        [EvGetActiveCount ts]
        ++ filter_calls ts (retrieve_filter_plannode_ node)
        ++ [EvMaskWithTimestamps b0 ts; EvMaskWithDelete stamped n ts]).
Proof.
  intros Hc Hn Hy n b0 stamped masked.
  rewrite (visit_spec node yielded Hn Hy).
  rewrite Hc, andb_false_r. reflexivity.
Qed.

(** C5: on the retrieve path without [is_count_], when the masked bitset
    has a clear bit: if the filter materialized offsets,
    [timestamp_filter(bitset, offsets, ts)] is called on the masked
    exclusion bitset as it is and [find_first] gets [false]; otherwise the
    bitset is flipped, [timestamp_filter(bitset, ts)] is called on it and
    [find_first] gets [true].  The offsets returned are those of
    [find_first] on the bitset the timestamp filter left. *)
Theorem C5_retrieve_offsets (node : RetrievePlanNode PlanNode)
  (yielded : option BitsetType) :
  is_count_ node = false ->
  get_active_count segment ts <> 0 ->
  filter_yields segment ts (retrieve_filter_plannode_ node) yielded ->
  let n := get_active_count segment ts in
  let filter := retrieve_filter_plannode_ node in
  let b0 := retrieve_bitset yielded false n in
  let stamped := mask_with_timestamps segment b0 ts in
  let masked := mask_with_delete segment stamped n ts in
  let calls := [EvGetActiveCount ts] ++ filter_calls ts filter ++
               [EvMaskWithTimestamps b0 ts; EvMaskWithDelete stamped n ts] in
  all masked = false ->
  match filter_offsets segment ts filter with
  | Some cache_offsets =>
      let final :=
        timestamp_filter_offsets segment masked cache_offsets ts in
      visit segment ts node [] =
        Ok ({| field_data_ := [];
               result_offsets_ :=
                 find_first segment (limit_ node) final false |},
            calls ++ [EvTimestampFilterOffsets masked cache_offsets ts;
                      EvFindFirst (limit_ node) final false])
  | None =>
      let final := timestamp_filter segment (flip masked) ts in
      visit segment ts node [] =
        Ok ({| field_data_ := [];
               result_offsets_ :=
                 find_first segment (limit_ node) final true |},
            calls ++ [EvTimestampFilter (flip masked) ts;
                      EvFindFirst (limit_ node) final true])
  end.
Proof.
  intros Hc Hn Hy n filter b0 stamped masked calls Hall.
  pose proof (visit_spec node yielded Hn Hy) as V. cbv zeta in V.
  rewrite Hc in V. fold n filter b0 stamped masked in V.
  rewrite Hall in V. cbn [andb negb] in V.
  destruct (filter_offsets segment ts filter); exact V.
Qed.

(** C10: on the retrieve path of a segment with active rows, the bitset
    handed to [mask_with_timestamps] is the flipped filter bitset when there
    is a filter, the all-zero bitset resized to n when there is none and
    [is_count_] is set, and the bitset of length 0 otherwise: it gets the
    length n up front only with [is_count_], and otherwise only from
    executing the filter.  Without filter and without [is_count_], on a
    segment whose masks keep the length of the bitset, every bitset that the
    run hands to [mask_with_timestamps], [mask_with_delete],
    [timestamp_filter] or [find_first] has length 0; the run makes the calls
    listed, of which [mask_with_timestamps] and [mask_with_delete] take a
    bitset. *)
Theorem C10_retrieve_bitset_allocation (node : RetrievePlanNode PlanNode)
  (yielded : option BitsetType) :
  get_active_count segment ts <> 0 ->
  filter_yields segment ts (retrieve_filter_plannode_ node) yielded ->
  masks_keep_length segment ->
  let n := get_active_count segment ts in
  let filter := retrieve_filter_plannode_ node in
  let b0 := match yielded with
            | Some bits => flip bits
            | None => if is_count_ node then repeat false (Z.to_nat n)
                      else []
            end in
  let stamped := mask_with_timestamps segment b0 ts in
  (exists result later,
     visit segment ts node [] =
       Ok (result,
           [EvGetActiveCount ts] ++ filter_calls ts filter ++
           [EvMaskWithTimestamps b0 ts; EvMaskWithDelete stamped n ts] ++
           later)) /\
  match filter, is_count_ node with
  | Some plannode, _ =>
      exists bits,
        filter_bits (task_results segment plannode ts) = Some bits /\
        b0 = flip bits
  | None, true => size b0 = Z.max 0 n
  | None, false =>
      size b0 = 0 /\
      exists log,
        visit segment ts node [] = Ok (RetrieveResult_new, log) /\
        log = [EvGetActiveCount ts; EvMaskWithTimestamps [] ts;
               EvMaskWithDelete stamped n ts] /\
        Forall (fun e => forall b, handed_bitset e = Some b -> size b = 0)
               log
  end.
Proof.
  intros Hn Hy [Kt Kd] n filter b0 stamped.
  pose proof (visit_spec node yielded Hn Hy) as V. cbv zeta in V.
  change (retrieve_bitset yielded (is_count_ node)
            (get_active_count segment ts)) with b0 in V.
  fold n filter stamped in V.
  split.
  - rewrite V.
    destruct (all (mask_with_delete segment stamped n ts)
              && negb (is_count_ node));
      [|destruct (is_count_ node);
        [|destruct (filter_offsets segment ts filter)]];
      eexists; eexists; rewrite <- ?app_assoc; cbn [app]; reflexivity.
  - unfold filter_yields in Hy. fold filter in Hy.
    destruct filter as [plannode|] eqn:Hf.
    + destruct yielded as [bits|]; [|destruct Hy].
      exists bits. split; [exact Hy | reflexivity].
    + destruct yielded as [bits|]; [destruct Hy|].
      destruct (is_count_ node) eqn:Hc.
      * subst b0. unfold size. rewrite repeat_length. lia.
      * assert (Hs : stamped = []).
        { apply length_zero_iff_nil. subst stamped b0. now rewrite Kt. }
        assert (Hm : mask_with_delete segment stamped n ts = []).
        { apply length_zero_iff_nil. now rewrite Kd, Hs. }
        split; [reflexivity|].
        eexists. split; [|split; [reflexivity|]].
        -- rewrite V, Hm. reflexivity.
        -- repeat constructor; intros b Hb; try discriminate Hb;
             injection Hb as <-; [reflexivity | now rewrite Hs].
Qed.

End Paths.

Lemma or_mask_length (b mask : list bool) :
  List.length (or_mask b mask) = List.length b.
Proof.
  revert mask. induction b as [|bit b IH]; intros [|m mask]; simpl;
    now rewrite ?IH.
Qed.

Lemma table_segment_keeps_length (insert_ts : list Timestamp)
  (tombstones : list (Z * Timestamp)) (results : list (list Vector)) :
  masks_keep_length (table_segment insert_ts tombstones results).
Proof.
  split; intros; simpl; apply or_mask_length.
Qed.

(** Scenario S3: 1000 rows, three of them match, nothing deleted, query
    timestamp past every insert: the count is 3. *)
Lemma C3_retrieve_count_witness :
  returned (visit S3_segment 5 (mkRetrievePlanNode (Some tt) 10 true) []) =
  Some (wrap_num_entities 3).
Proof.
  refine (C3_retrieve_count S3_segment 5
            (mkRetrievePlanNode (Some tt) 10 true) (Some S3_matches)
            eq_refl eq_refl (table_segment_keeps_length _ _ _) eq_refl _).
  intros bits H. injection H as <-. reflexivity.
Defined.

(** C4, as stated, fails: with six rows, a filter accepting rows 0-3 and
    row 2 deleted, the flipped filter bitset has two set bits, so counting
    before the masks would give 6 - 2 = 4; the executor returns 3, the
    count after [mask_with_delete] has excluded row 2. *)
Lemma C4_count_not_before_masks :
  filter_bits [[ColumnVector (BoolData S5_matches)]] = Some S5_matches /\
  6 - count (flip S5_matches) = 4 /\
  visit (S5_segment [[ColumnVector (BoolData S5_matches)]]) 5
        (mkRetrievePlanNode (Some tt) 10 true) [] =
    Ok (wrap_num_entities 3,
        [ EvGetActiveCount 5; EvTask tt 5;
          EvMaskWithTimestamps [false; false; false; false; true; true] 5;
          EvMaskWithDelete [false; false; false; false; true; true] 6 5 ]) /\
  returned (visit (S5_segment [[ColumnVector (BoolData S5_matches)]]) 5
                  (mkRetrievePlanNode (Some tt) 10 true) []) <>
    Some (wrap_num_entities (6 - count (flip S5_matches))).
Proof.
  repeat split. vm_compute. discriminate.
Qed.

Lemma C4_count_after_masks_witness :
  visit (S5_segment [[ColumnVector (BoolData S5_matches)]]) 5
        (mkRetrievePlanNode (Some tt) 10 true) [] =
    Ok (wrap_num_entities 3,
        [ EvGetActiveCount 5; EvTask tt 5;
          EvMaskWithTimestamps [false; false; false; false; true; true] 5;
          EvMaskWithDelete [false; false; false; false; true; true] 6 5 ]).
Proof.
  refine (C4_count_after_masks
            (S5_segment [[ColumnVector (BoolData S5_matches)]]) 5
            (mkRetrievePlanNode (Some tt) 10 true) (Some S5_matches)
            eq_refl _ eq_refl).
  discriminate.
Defined.

(** Scenario S5 twice: with a plain boolean column the bitset is flipped
    before [timestamp_filter]; with a row vector carrying offsets the
    exclusion bitset goes to the offset overload as it is. *)
Lemma C5_retrieve_offsets_witness :
  visit (S5_segment [[ColumnVector (BoolData S5_matches)]]) 5
        (mkRetrievePlanNode (Some tt) 10 false) [] =
    Ok ({| field_data_ := []; result_offsets_ := [0; 1; 3] |},
        [ EvGetActiveCount 5; EvTask tt 5;
          EvMaskWithTimestamps [false; false; false; false; true; true] 5;
          EvMaskWithDelete [false; false; false; false; true; true] 6 5;
          EvTimestampFilter [true; true; false; true; false; false] 5;
          EvFindFirst 10 [true; true; false; true; false; false] true ])
  /\
  visit (S5_segment
           [[RowVector [ColumnVector (BoolData S5_matches);
                        ColumnVector (Int64Data [0; 1; 2; 3])]]]) 5
        (mkRetrievePlanNode (Some tt) 10 false) [] =
    Ok ({| field_data_ := []; result_offsets_ := [0; 1; 3] |},
        [ EvGetActiveCount 5; EvTask tt 5;
          EvMaskWithTimestamps [false; false; false; false; true; true] 5;
          EvMaskWithDelete [false; false; false; false; true; true] 6 5;
          EvTimestampFilterOffsets [false; false; true; false; true; true]
            [0; 1; 2; 3] 5;
          EvFindFirst 10 [false; false; true; false; true; true] false ]).
Proof.
  split.
  - refine (C5_retrieve_offsets
              (S5_segment [[ColumnVector (BoolData S5_matches)]]) 5
              (mkRetrievePlanNode (Some tt) 10 false) (Some S5_matches)
              eq_refl _ eq_refl eq_refl).
    discriminate.
  - refine (C5_retrieve_offsets
              (S5_segment
                 [[RowVector [ColumnVector (BoolData S5_matches);
                              ColumnVector (Int64Data [0; 1; 2; 3])]]]) 5
              (mkRetrievePlanNode (Some tt) 10 false) (Some S5_matches)
              eq_refl _ eq_refl eq_refl).
    discriminate.
Defined.

(** Scenario S4 without [is_count_], and the same retrieval with it: ten
    rows inserted at timestamps 1..10, query at 5, no filter, limit 20. *)
Lemma C10_retrieve_bitset_allocation_witness :
  (exists log,
     visit S4_segment 5 (mkRetrievePlanNode None 20 false) [] =
       Ok (RetrieveResult_new, log) /\
     log = [ EvGetActiveCount 5; EvMaskWithTimestamps [] 5;
             EvMaskWithDelete [] 10 5 ] /\
     Forall (fun e => forall b, handed_bitset e = Some b -> size b = 0) log)
  /\
  exists result later,
    visit S4_segment 5 (mkRetrievePlanNode None 20 true) [] =
      Ok (result,
          [ EvGetActiveCount 5; EvMaskWithTimestamps (repeat false 10) 5;
            EvMaskWithDelete
              (mask_with_timestamps S4_segment (repeat false 10) 5) 10 5 ]
          ++ later).
Proof.
  assert (Hn : get_active_count S4_segment 5 <> 0) by discriminate.
  split.
  - exact (proj2 (proj2
             (C10_retrieve_bitset_allocation S4_segment 5
                (mkRetrievePlanNode None 20 false) None Hn I
                (table_segment_keeps_length _ _ _)))).
  - exact (proj1
             (C10_retrieve_bitset_allocation S4_segment 5
                (mkRetrievePlanNode None 20 true) None Hn I
                (table_segment_keeps_length _ _ _))).
Defined.

(** Scenario S1: no row, top_k = 10, two query vectors. *)
Lemma C6_ann_empty_segment_witness :
  exists result,
    VectorVisitorImpl (table_segment [] [] []) 7
      [mkPlaceholder 2 [1; 2; 3; 4]]
      (mkVectorPlanNode (mkSearchInfo 10 L2 (-1)) (Some tt)) [] =
      Ok (result, [EvGetActiveCount 7]) /\
    total_nq_ result = 2 /\
    unity_topK_ result = 10 /\
    List.length (seg_offsets_ result) = 20%nat /\
    Forall (fun offset => offset = -1) (seg_offsets_ result) /\
    List.length (distances_ result) = 20%nat /\
    Forall (fun d => d = sentinel L2) (distances_ result).
Proof.
  exact (C6_ann_empty_segment (table_segment [] [] []) 7
           (mkPlaceholder 2 [1; 2; 3; 4]) []
           (mkVectorPlanNode (mkSearchInfo 10 L2 (-1)) (Some tt))
           eq_refl).
Defined.

(** Six rows, the filter accepts rows 0-3 and row 2 is deleted: the index is
    searched with rows 2, 4 and 5 excluded.  With a filter that accepts
    nothing the index is not searched. *)
Lemma C1_ann_filter_path_witness :
  VectorVisitorImpl (S5_segment [[ColumnVector (BoolData S5_matches)]]) 5
    [mkPlaceholder 2 [1; 2]]
    (mkVectorPlanNode (mkSearchInfo 3 L2 0) (Some tt)) [] =
  Ok ({| total_nq_ := 2; unity_topK_ := 3; seg_offsets_ := [0; 1; 3];
         distances_ := [measured 0; measured 1; measured 3] |},
      [ EvGetActiveCount 5; EvTask tt 5;
        EvMaskWithTimestamps [false; false; false; false; true; true] 5;
        EvMaskWithDelete [false; false; false; false; true; true] 6 5;
        EvVectorSearch (mkSearchInfo 3 L2 0) [1; 2] 2 5
          [false; false; true; false; true; true] ])
  /\
  VectorVisitorImpl (S5_segment [[ColumnVector (BoolData (repeat false 6))]])
    5 [mkPlaceholder 2 [1; 2]]
    (mkVectorPlanNode (mkSearchInfo 3 L2 0) (Some tt)) [] =
  Ok (empty_search_result 2 (mkSearchInfo 3 L2 0),
      [ EvGetActiveCount 5; EvTask tt 5;
        EvMaskWithTimestamps (repeat true 6) 5;
        EvMaskWithDelete (repeat true 6) 6 5 ]).
Proof.
  split.
  - exact (C1_ann_filter_path
             (S5_segment [[ColumnVector (BoolData S5_matches)]]) 5
             (mkPlaceholder 2 [1; 2]) []
             (mkVectorPlanNode (mkSearchInfo 3 L2 0) (Some tt)) tt
             S5_matches eq_refl eq_refl eq_refl).
  - exact (C1_ann_filter_path
             (S5_segment [[ColumnVector (BoolData (repeat false 6))]]) 5
             (mkPlaceholder 2 [1; 2]) []
             (mkVectorPlanNode (mkSearchInfo 3 L2 0) (Some tt)) tt
             (repeat false 6) eq_refl eq_refl eq_refl).
Defined.

End ExecutorFacts.

(** ** Further properties of scheduler/SchedInst.cpp *)

Module SchedulerMore.
Import Scheduler.
Local Open Scope string_scope.
Local Open Scope list_scope.

Lemma find_gpu_id_false_count (gpu_ids : list Z) (id : Z) :
  find_gpu_id gpu_ids id = false -> count_occ Z.eq_dec gpu_ids id = 0%nat.
Proof.
  intros H. apply count_occ_not_In. intros Hin.
  apply SchedulerFacts.find_gpu_id_In in Hin. congruence.
Qed.

Lemma count_not_find_build_ids (gpu_ids build_gpu_ids : list Z) (id : Z) :
  count_occ Z.eq_dec (not_find_build_ids gpu_ids build_gpu_ids) id =
  if find_gpu_id gpu_ids id then 0%nat
  else count_occ Z.eq_dec build_gpu_ids id.
Proof.
  induction build_gpu_ids as [|b rest IH]; simpl.
  - now destruct (find_gpu_id gpu_ids id).
  - destruct (find_gpu_id gpu_ids b) eqn:Fb; simpl.
    + rewrite IH. destruct (Z.eq_dec b id) as [->|Hne].
      * now rewrite Fb.
      * reflexivity.
    + rewrite IH. destruct (Z.eq_dec b id) as [->|Hne].
      * now rewrite Fb.
      * reflexivity.
Qed.

(** X1: how often [load_simple_config] adds a GPU resource for a device
    id, for any two pools (repeated ids included): as often as the id is
    listed in the search pool when it is listed there at all, the build
    pool then adding nothing; otherwise as often as it is listed in the
    build pool. *)
Theorem X1_adds_per_device (gpu_ids build_gpu_ids : list Z) (id : Z) :
  count_occ Z.eq_dec
    (added_gpu_ids (load_simple_config gpu_ids build_gpu_ids)) id =
  if find_gpu_id gpu_ids id
  then count_occ Z.eq_dec gpu_ids id
  else count_occ Z.eq_dec build_gpu_ids id.
Proof.
  rewrite SchedulerFacts.added_gpu_ids_load_simple_config.
  rewrite count_occ_app, count_not_find_build_ids.
  destruct (find_gpu_id gpu_ids id) eqn:F.
  - lia.
  - now rewrite (find_gpu_id_false_count _ _ F).
Qed.

Lemma existsb_eqb_In (a : string) (known : list string) :
  existsb (String.eqb a) known = true <-> In a known.
Proof.
  rewrite existsb_exists. split.
  - intros (x & Hx & E). apply String.eqb_eq in E. now subst.
  - intros H. exists a. split; [exact H | apply String.eqb_refl].
Qed.

Lemma connects_known_add_gpu (pcie : Connection) (ids : list Z) :
  forall known,
    In "cpu" known ->
    connects_known known (flat_map (add_gpu pcie) ids) = true.
Proof.
  induction ids as [|i rest IH]; intros known Hcpu; simpl.
  - reflexivity.
  - change (existsb (String.eqb "cpu") (to_string i :: known)
            && existsb (String.eqb (to_string i)) (to_string i :: known)
            && connects_known (to_string i :: known)
                 (flat_map (add_gpu pcie) rest) = true).
    rewrite (proj2 (existsb_eqb_In "cpu" (to_string i :: known)))
      by now right.
    rewrite (proj2 (existsb_eqb_In (to_string i) (to_string i :: known)))
      by now left.
    apply IH. now right.
Qed.

Lemma connects_known_app (c1 c2 : list Call) :
  forall known,
    connects_known known (c1 ++ c2) =
    connects_known known c1 &&
    connects_known (rev (added_names c1) ++ known) c2.
Proof.
  induction c1 as [|[r|a b c] rest IH]; intros known; simpl.
  - reflexivity.
  - rewrite IH. unfold added_names. simpl.
    now rewrite <- app_assoc.
  - rewrite IH. unfold added_names. now rewrite andb_assoc.
Qed.

Lemma connected_add_gpu (pcie : Connection) (ids : list Z) :
  connected (flat_map (add_gpu pcie) ids) =
  map (fun id => ("cpu", to_string id, pcie)) ids.
Proof.
  induction ids as [|i rest IH]; simpl; now rewrite ?IH.
Qed.

Lemma connected_app (c1 c2 : list Call) :
  connected (c1 ++ c2) = connected c1 ++ connected c2.
Proof.
  induction c1 as [|[r|a b c] rest IH]; simpl; now rewrite ?IH.
Qed.

(** X2: for any two pools, every [Connect] that [load_simple_config]
    issues names two resources it has added before that call, and the links
    are exactly disk-cpu at speed 500 followed by one cpu-GPU link at speed
    12000 for every GPU resource added, in the order of the [Add]s. *)
Theorem X2_links_follow_adds (gpu_ids build_gpu_ids : list Z) :
  connects_known [] (load_simple_config gpu_ids build_gpu_ids) = true /\
  connected (load_simple_config gpu_ids build_gpu_ids) =
    ("disk", "cpu", mkConnection "io" 500)
    :: map (fun id => ("cpu", to_string id, mkConnection "pcie" 12000))
           (added_gpu_ids (load_simple_config gpu_ids build_gpu_ids)).
Proof.
  split.
  - unfold load_simple_config. simpl.
    rewrite connects_known_app, !connects_known_add_gpu;
      try reflexivity; try (apply in_or_app; right); simpl; auto.
  - rewrite SchedulerFacts.added_gpu_ids_load_simple_config.
    unfold load_simple_config. simpl.
    now rewrite connected_app, !connected_add_gpu, map_app.
Qed.

Lemma graph_before_start_app (calls : list Call) (tail : list ServiceCall) :
  graph_before_start (map Graph calls ++ tail) = graph_before_start tail.
Proof.
  induction calls as [|c rest IH]; simpl; auto.
Qed.

Lemma started_graph (calls : list Call) (tail : list ServiceCall) :
  started (map Graph calls ++ tail) = started tail.
Proof.
  induction calls as [|c rest IH]; simpl; auto.
Qed.

Lemma graph_calls_graph (calls : list Call) (tail : list ServiceCall) :
  graph_calls (map Graph calls ++ tail) = (calls ++ graph_calls tail)%list.
Proof.
  induction calls as [|c rest IH]; simpl; now rewrite ?IH.
Qed.

Lemma stopped_graph (calls : list Call) (tail : list ServiceCall) :
  stopped (map Graph calls ++ tail) = stopped tail.
Proof.
  induction calls as [|c rest IH]; simpl; auto.
Qed.

(** X3: whatever the pools, the calls [StartSchedulerService] makes on the
    resource graph are exactly those of [load_simple_config], in its order
    and all of them before the first [Start()]: the resource manager is
    started on a graph that holds a GPU resource for every id of either
    pool.  It then starts the resource manager, the scheduler and the job
    manager in that order and stops nothing; [StopSchedulerService] stops
    them in the reverse order, starts nothing and makes no call on the
    graph. *)
Theorem X3_service_order (gpu_ids build_gpu_ids : list Z) :
  let calls := StartSchedulerService gpu_ids build_gpu_ids in
  graph_calls calls = load_simple_config gpu_ids build_gpu_ids /\
  graph_before_start calls = true /\
  (forall id, In id gpu_ids \/ In id build_gpu_ids ->
              In id (added_gpu_ids (graph_calls calls))) /\
  started calls = [ResMgr; Sched; JobMgr] /\
  stopped calls = [] /\
  stopped StopSchedulerService = rev (started calls) /\
  started StopSchedulerService = [] /\
  graph_calls StopSchedulerService = [].
Proof.
  intros calls. subst calls. unfold StartSchedulerService.
  rewrite graph_calls_graph, graph_before_start_app, started_graph,
    stopped_graph.
  cbn [graph_calls]. rewrite app_nil_r.
  repeat split.
  intros id H.
  rewrite SchedulerFacts.added_gpu_ids_load_simple_config.
  apply in_or_app.
  destruct (SchedulerFacts.find_gpu_id_In gpu_ids id) as [_ F].
  destruct H as [H|H]; [now left|].
  destruct (in_dec Z.eq_dec id gpu_ids) as [I|I]; [now left|].
  right. apply SchedulerFacts.In_not_find_build_ids. now split.
Qed.

End SchedulerMore.

(** ** Further properties of simd/hook.cpp *)

Module SimdMore.
Import Simd.

Ltac case_bools cpu :=
  destruct cpu as [f dq bw a2 s42 s2];
  destruct f, dq, bw, a2, s42, s2.

(** X4: on an x86-64 CPU whose feature sets are nested, whatever the four
    [use_*] switches are set to before the hooks run, every dispatched
    symbol ends up bound to the reference kernel or to a kernel the CPU can
    execute. *)
Theorem X4_bound_kernels_run (cpu : InstructionSet)
  (avx512 avx2 sse4_2 sse2 : bool) :
  nested_features cpu = true ->
  Forall (fun s =>
            runs_on cpu
              (binding s (init_hook_ x86_64 cpu
                            (with_switches avx512 avx2 sse4_2 sse2)))
            = true)
         all_symbols.
Proof.
  intros N. case_bools cpu; try discriminate N;
    destruct avx512, avx2, sse4_2, sse2;
    repeat constructor.
Qed.

Lemma X4_bound_kernels_run_witness :
  Forall (fun s =>
            runs_on cpu_all
              (binding s (init_hook_ x86_64 cpu_all
                            (with_switches true true true true)))
            = true)
         all_symbols.
Proof.
  exact (X4_bound_kernels_run cpu_all true true true true eq_refl).
Defined.

Ltac case_state h :=
  destruct h as [u512 u2 u42 us2 ub fs2 fs42 fa2 fa512
                 gbb af at_ ib ab ob fb f8 f16 f32 f64 ff fd];
  destruct u512, u2, u42, us2.

Ltac case_conditions :=
  repeat match goal with
         | |- context [if ?c then _ else _] => destruct c
         end.

Ltac kept_or_bound :=
  first [left; reflexivity | right; discriminate].

Lemma upgrade_trans (a b c : Kernel) :
  b = a \/ b <> KRef -> c = b \/ c <> KRef -> c = a \/ c <> KRef.
Proof. intros H [->|H']; auto. Qed.

Lemma bitset_hook_upgrades t cpu h s :
  binding s (bitset_hook t cpu h) = binding s h \/
  binding s (bitset_hook t cpu h) <> KRef.
Proof.
  unfold bitset_hook. destruct t; case_conditions; destruct s;
    kept_or_bound.
Qed.

Lemma find_term_hook_upgrades t cpu h s :
  binding s (find_term_hook t cpu h) = binding s h \/
  binding s (find_term_hook t cpu h) <> KRef.
Proof.
  unfold find_term_hook. destruct t; case_conditions; destruct s;
    kept_or_bound.
Qed.

Lemma all_boolean_hook_upgrades t cpu h s :
  binding s (all_boolean_hook t cpu h) = binding s h \/
  binding s (all_boolean_hook t cpu h) <> KRef.
Proof.
  unfold all_boolean_hook. destruct t; case_conditions; destruct s;
    kept_or_bound.
Qed.

Lemma invert_boolean_hook_upgrades t cpu h s :
  binding s (invert_boolean_hook t cpu h) = binding s h \/
  binding s (invert_boolean_hook t cpu h) <> KRef.
Proof.
  unfold invert_boolean_hook. destruct t; case_conditions; destruct s;
    kept_or_bound.
Qed.

Lemma logical_boolean_hook_upgrades t cpu h s :
  binding s (logical_boolean_hook t cpu h) = binding s h \/
  binding s (logical_boolean_hook t cpu h) <> KRef.
Proof.
  unfold logical_boolean_hook. destruct t; case_conditions; destruct s;
    kept_or_bound.
Qed.

Lemma init_hook_upgrades t cpu h s :
  binding s (init_hook_ t cpu h) = binding s h \/
  binding s (init_hook_ t cpu h) <> KRef.
Proof.
  unfold init_hook_, boolean_hook.
  repeat (eapply upgrade_trans;
          [| first [ apply logical_boolean_hook_upgrades
                   | apply invert_boolean_hook_upgrades
                   | apply all_boolean_hook_upgrades
                   | apply find_term_hook_upgrades ] ]).
  apply bitset_hook_upgrades.
Qed.

(** X5: from any state of the globals, on any target and CPU, running the
    initialisation leaves the four [use_*] switches as they are and, for
    every symbol, either leaves its binding as it is or binds a kernel other
    than the reference one: no hook ever puts a pointer back to the
    reference kernel, so switching a feature off after a kernel was
    installed does not uninstall it. *)
Theorem X5_hooks_never_restore_reference (t : Target) (cpu : InstructionSet)
  (h : Hooks) :
  switches (init_hook_ t cpu h) = switches h /\
  Forall (fun s =>
            binding s (init_hook_ t cpu h) = binding s h \/
            binding s (init_hook_ t cpu h) <> KRef)
         all_symbols.
Proof.
  split.
  - case_state h; case_bools cpu; destruct t; vm_compute; reflexivity.
  - apply Forall_forall. intros s _. apply init_hook_upgrades.
Qed.

(** X6: after the initialisation has run once on x86-64 from the static
    state, with any setting of the switches, the [use_find_term_*] flags
    announce the family the [find_term_*] pointers are bound to: the flag of
    that family is raised and the other three are not, and no flag is raised
    when the reference kernel stays; the seven pointers are bound to one and
    the same family, and [use_bitset_sse2] is raised exactly when
    [get_bitset_block] is bound to the SSE2 kernel. *)
Theorem X6_flags_announce_bindings (cpu : InstructionSet)
  (avx512 avx2 sse4_2 sse2 : bool) :
  let h := init_hook_ x86_64 cpu (with_switches avx512 avx2 sse4_2 sse2) in
  find_term_flags h =
    match find_term_bool h with
    | KAVX512 => (true, false, false, false)
    | KAVX2 => (false, true, false, false)
    | KSSE4 => (false, false, true, false)
    | KSSE2 => (false, false, false, true)
    | KRef | KNEON => (false, false, false, false)
    end /\
  find_term_bool h <> KNEON /\
  Forall (fun s => binding s h = find_term_bool h) find_term_symbols /\
  use_bitset_sse2 h =
    match get_bitset_block h with
    | KSSE2 => true
    | _ => false
    end.
Proof.
  case_bools cpu; destruct avx512, avx2, sse4_2, sse2;
    vm_compute; repeat split; try discriminate; repeat constructor.
Qed.

(** X7: the hooks are independent of each other and idempotent, from any
    state of the globals: running [bitset_hook], [find_term_hook] and
    [boolean_hook] in any of the six orders gives the state [init_hook_]
    gives (which runs them in the order bitset, find_term, boolean), and
    running the initialisation a second time changes nothing. *)
Theorem X7_hooks_commute (t : Target) (cpu : InstructionSet) (h : Hooks) :
  boolean_hook t cpu (find_term_hook t cpu (bitset_hook t cpu h)) =
    init_hook_ t cpu h /\
  find_term_hook t cpu (boolean_hook t cpu (bitset_hook t cpu h)) =
    init_hook_ t cpu h /\
  boolean_hook t cpu (bitset_hook t cpu (find_term_hook t cpu h)) =
    init_hook_ t cpu h /\
  bitset_hook t cpu (boolean_hook t cpu (find_term_hook t cpu h)) =
    init_hook_ t cpu h /\
  find_term_hook t cpu (bitset_hook t cpu (boolean_hook t cpu h)) =
    init_hook_ t cpu h /\
  bitset_hook t cpu (find_term_hook t cpu (boolean_hook t cpu h)) =
    init_hook_ t cpu h /\
  init_hook_ t cpu (init_hook_ t cpu h) = init_hook_ t cpu h.
Proof.
  case_state h; case_bools cpu; destruct t;
    vm_compute; repeat split.
Qed.

End SimdMore.

(** ** Further properties of exec/expression/ConjunctExpr.cpp *)

Module ConjunctMore.
Import Conjunct.

Lemma AllTrue_Forall (data : list bool) :
  AllTrue data = true <-> Forall (fun b => b = true) data.
Proof.
  induction data as [|b rest IH]; simpl.
  - split; auto.
  - destruct b; simpl.
    + rewrite IH. split; intros H; [constructor; auto | now inversion H].
    + split; [discriminate | intros H; inversion H; discriminate].
Qed.

Lemma AllFalse_Forall (data : list bool) :
  AllFalse data = true <-> Forall (fun b => b = false) data.
Proof.
  induction data as [|b rest IH]; simpl.
  - split; auto.
  - destruct b; simpl.
    + split; [discriminate | intros H; inversion H; discriminate].
    + rewrite IH. split; intros H; [constructor; auto | now inversion H].
Qed.

(** X8: [AllTrue] holds exactly of the vectors whose rows are all true and
    [AllFalse] exactly of those whose rows are all false; both hold at once
    only of the empty vector, on which [CanSkipNextExprs] therefore answers
    true under AND and under OR alike. *)
Theorem X8_all_true_all_false (data : list bool) :
  (AllTrue data = true <-> Forall (fun b => b = true) data) /\
  (AllFalse data = true <-> Forall (fun b => b = false) data) /\
  (AllTrue data = true /\ AllFalse data = true <-> data = []) /\
  (data = [] <->
     CanSkipNextExprs true data = true /\
     CanSkipNextExprs false data = true).
Proof.
  assert (B : AllTrue data = true /\ AllFalse data = true <-> data = []).
  { destruct data as [|[|] rest]; simpl; split; auto;
      try discriminate; intros [H1 H2]; discriminate. }
  split; [apply AllTrue_Forall | split; [apply AllFalse_Forall | split]].
  - exact B.
  - rewrite <- B. unfold CanSkipNextExprs. simpl.
    destruct (AllTrue data), (AllFalse data); simpl; tauto.
Qed.

(** X9: [AllSet] and [AllReset] keep the number of rows; after [AllSet]
    the vector passes [AllTrue], after [AllReset] it passes [AllFalse], and
    the opposite test passes only when the vector has no row. *)
Theorem X9_set_and_reset (data : list bool) :
  List.length (AllSet data) = List.length data /\
  List.length (AllReset data) = List.length data /\
  AllTrue (AllSet data) = true /\
  AllFalse (AllReset data) = true /\
  (AllFalse (AllSet data) = true <-> data = []) /\
  (AllTrue (AllReset data) = true <-> data = []).
Proof.
  repeat split; try (induction data as [|b rest IH]; simpl; congruence);
    destruct data; simpl; auto; discriminate.
Qed.

Lemma UpdateResult_eq (is_and : bool) (input res : list bool) :
  UpdateResult is_and input res = ConjunctElementFunc is_and input res.
Proof. unfold UpdateResult. now destruct is_and. Qed.

Lemma ConjunctElementFunc_rowwise (is_and : bool) (input : list bool) :
  forall res, List.length input = List.length res ->
    fst (ConjunctElementFunc is_and input res) = rowwise is_and res input.
Proof.
  induction input as [|i input IH]; intros [|r res] L; simpl in *;
    try discriminate; try reflexivity.
  injection L as L. specialize (IH res L).
  destruct (ConjunctElementFunc is_and input res) as [out n].
  simpl in *. now rewrite IH.
Qed.

Lemma ConjunctElementFunc_nonneg (is_and : bool) (input : list bool) :
  forall res, 0 <= snd (ConjunctElementFunc is_and input res).
Proof.
  induction input as [|i input IH]; intros [|r res]; simpl; try lia.
  specialize (IH res).
  destruct (ConjunctElementFunc is_and input res) as [out n]. simpl in *.
  destruct (if is_and then _ else _); lia.
Qed.

Lemma ConjunctElementFunc_zero (is_and : bool) (input : list bool) :
  forall res, List.length input = List.length res ->
    snd (ConjunctElementFunc is_and input res) = 0 ->
    dominated is_and (fst (ConjunctElementFunc is_and input res)) = true.
Proof.
  induction input as [|i input IH]; intros [|r res] L; simpl in *;
    try discriminate.
  - intros _. now destruct is_and.
  - injection L as L. specialize (IH res L).
    pose proof (ConjunctElementFunc_nonneg is_and input res) as N.
    destruct (ConjunctElementFunc is_and input res) as [out n].
    simpl in *. destruct is_and; simpl.
    + destruct (r && i); simpl; intros Z0; [lia | now apply IH].
    + destruct (r || i); simpl; intros Z0; [now apply IH | lia].
Qed.

Lemma rowwise_length (is_and : bool) (a : list bool) :
  forall b, List.length b = List.length a ->
    List.length (rowwise is_and a b) = List.length a.
Proof.
  induction a as [|x a IH]; intros [|y b] L; simpl in *; try discriminate;
    auto.
Qed.

Lemma rowwise_dominated (is_and : bool) (a : list bool) :
  forall b, List.length b = List.length a ->
    dominated is_and a = true -> rowwise is_and a b = a.
Proof.
  induction a as [|x a IH]; intros [|y b] L D; simpl in *;
    try discriminate; auto.
  injection L as L.
  destruct is_and, x; simpl in *; try discriminate;
    now rewrite (IH b L D).
Qed.

Lemma combine_all_dominated (is_and : bool) (others : list (list bool)) :
  forall first,
    Forall (fun d => List.length d = List.length first) others ->
    dominated is_and first = true ->
    combine_all is_and first others = first.
Proof.
  unfold combine_all.
  induction others as [|d others IH]; intros first F D; simpl.
  - reflexivity.
  - inversion F as [|? ? Hd Hrest]; subst.
    rewrite (rowwise_dominated is_and first d Hd D). now apply IH.
Qed.

Section Transparent.

Variable EvalCtx : Type.
Variable is_and : bool.

Lemma Eval_from_constant (others : list (list bool)) :
  forall (acc : list bool) (i : Z) (context : EvalCtx),
    0 < i ->
    Forall (fun d => List.length d = List.length acc) others ->
    Eval_from is_and (map constant others) i context
              (Some (ColumnVector (BoolData acc))) =
    Ok (Some (ColumnVector (BoolData (combine_all is_and acc others))),
        context).
Proof.
  induction others as [|d others IH]; intros acc i context Hi F.
  - reflexivity.
  - inversion F as [|? ? Hd Hrest]; subst.
    cbn [map Eval_from]. unfold constant at 1. cbn [bindE].
    destruct (Z.eqb_spec i 0) as [E|_]; [lia|].
    cbn [GetColumnVector bool_data bindE].
    rewrite UpdateResult_eq.
    pose proof (ConjunctElementFunc_rowwise is_and d acc Hd) as R.
    pose proof (ConjunctElementFunc_zero is_and d acc Hd) as Z0.
    destruct (ConjunctElementFunc is_and d acc) as [combined active].
    cbn [fst snd] in *. subst combined. cbn [store_column].
    assert (L : Forall (fun x => List.length x =
                          List.length (rowwise is_and acc d)) others).
    { rewrite rowwise_length by exact Hd. exact Hrest. }
    destruct (Z.eqb_spec active 0) as [E|_].
    + rewrite <- (combine_all_dominated is_and others _ L (Z0 E)) at 1.
      reflexivity.
    + rewrite IH; [reflexivity | lia | exact L].
Qed.

End Transparent.

(** X10: when every child yields a boolean column of the same number of
    rows, whatever the context, [Eval] returns the row-by-row AND (resp. OR)
    of all the columns and leaves the context alone: stopping early at a
    dominated running result never changes the answer.  (The combination
    step is [ConjunctElementFunc], modelled from the spec.) *)
Theorem X10_short_circuit_is_transparent (EvalCtx : Type) (is_and : bool)
  (first : list bool) (others : list (list bool)) (context : EvalCtx)
  (result : VectorPtr) :
  Forall (fun d => List.length d = List.length first) others ->
  Eval is_and (map constant (first :: others)) context result =
    Ok (Some (ColumnVector (BoolData (combine_all is_and first others))),
        context).
Proof.
  intros F. unfold Eval. cbn [map Eval_from]. unfold constant at 1.
  cbn [bindE Z.eqb GetColumnVector bool_data].
  rewrite ConjunctFacts.CanSkipNextExprs_dominated.
  destruct (dominated is_and first) eqn:D.
  - now rewrite (combine_all_dominated is_and others first F D).
  - apply Eval_from_constant; [lia | exact F].
Qed.

Lemma X10_short_circuit_is_transparent_witness :
  Eval true (map constant [[true; false; true]; [true; true; false];
                           [true; false; false]]) tt None =
    Ok (Some (ColumnVector (BoolData [true; false; false])), tt) /\
  Eval false (map constant [[true; false]; [false; false]; [false; true]])
       tt None =
    Ok (Some (ColumnVector (BoolData [true; true])), tt).
Proof.
  split.
  - apply (X10_short_circuit_is_transparent unit true [true; false; true]
             [[true; true; false]; [true; false; false]] tt None).
    repeat constructor.
  - apply (X10_short_circuit_is_transparent unit false [true; false]
             [[false; false]; [false; true]] tt None).
    repeat constructor.
Defined.

Lemma Eval_from_counted (is_and : bool) (others : list (list bool)) :
  forall (acc : list bool) (i : Z) (n : nat),
    0 < i ->
    exists v k,
      Eval_from is_and (map counted others) i n
                (Some (ColumnVector (BoolData acc))) =
        Ok (Some (ColumnVector (BoolData v)), (n + k)%nat) /\
      (k <= List.length others)%nat.
Proof.
  induction others as [|d others IH]; intros acc i n Hi.
  - exists acc, 0%nat. split; [simpl; now rewrite Nat.add_0_r | lia].
  - cbn [map Eval_from]. unfold counted at 1. cbn [bindE].
    destruct (Z.eqb_spec i 0) as [E|_]; [lia|].
    cbn [GetColumnVector bool_data bindE].
    destruct (UpdateResult is_and d acc) as [combined active].
    cbn [store_column].
    destruct (active =? 0).
    + exists combined, 1%nat. split; [now rewrite Nat.add_1_r | simpl; lia].
    + destruct (IH combined (i + 1) (S n)) as (v & k & E & L); [lia|].
      exists v, (S k). split; [|simpl; lia].
      rewrite E. now rewrite Nat.add_succ_r.
Qed.

(** X11: when every child yields a boolean column, [Eval] succeeds with a
    boolean column and has evaluated at least the first child and no child
    twice: the evaluation counter grows by at least 1 and at most the number
    of children, whatever the columns' contents and lengths. *)
Theorem X11_children_evaluated_once (is_and : bool) (first : list bool)
  (others : list (list bool)) (n : nat) (result : VectorPtr) :
  exists v k,
    Eval is_and (map counted (first :: others)) n result =
      Ok (Some (ColumnVector (BoolData v)), (n + k)%nat) /\
    (1 <= k <= List.length (first :: others))%nat.
Proof.
  unfold Eval. cbn [map Eval_from]. unfold counted at 1.
  cbn [bindE Z.eqb GetColumnVector bool_data].
  destruct (CanSkipNextExprs is_and first).
  - exists first, 1%nat. split; [now rewrite Nat.add_1_r | simpl; lia].
  - destruct (Eval_from_counted is_and others first (0 + 1) (S n))
      as (v & k & E & L); [lia|].
    exists v, (S k). split; [|simpl; lia].
    rewrite E. now rewrite Nat.add_succ_r.
Qed.

(** X12: a failure of the first child is the failure of [Eval], whatever
    the other children are; a first child whose result [GetColumnVector]
    rejects makes [Eval] fail with that error too; and with a single child
    that yields a boolean column [Eval] returns that child's vector and
    context untouched, under AND and under OR. *)
Theorem X12_first_child (EvalCtx : Type) (is_and : bool)
  (c1 : Expr EvalCtx) (rest : list (Expr EvalCtx)) (context : EvalCtx)
  (result : VectorPtr) :
  match c1 context with
  | Err e => Eval is_and (c1 :: rest) context result = Err e
  | Ok (v, context') =>
      match GetColumnVector v with
      | Err e => Eval is_and (c1 :: rest) context result = Err e
      | Ok _ => Eval is_and [c1] context result = Ok (v, context')
      end
  end.
Proof.
  unfold Eval. cbn [Eval_from].
  destruct (c1 context) as [[v context']|e]; cbn [bindE Z.eqb];
    [|reflexivity].
  destruct (GetColumnVector v) as [data|e]; cbn [bindE]; [|reflexivity].
  now destruct (CanSkipNextExprs is_and data).
Qed.

End ConjunctMore.

(** ** Further properties of query/visitors/ExecPlanNodeVisitor.cpp *)

Module ExecutorMore.
Import Executor.

Ltac run := unfold bind, call, ret, lift; cbn [app bindE].

Lemma zeros_size_count (n : Z) :
  0 <= n -> size (zeros n) = n /\ count (zeros n) = 0.
Proof.
  intros H. unfold size, count, zeros. rewrite repeat_length. split; [lia|].
  induction (Z.to_nat n) as [|k IH]; simpl; auto.
Qed.

Section More.

Context {PlanNode : Type}.
Variable segment : SegmentInternalInterface PlanNode.
Variable ts : Timestamp.

(** X13: on a segment with n > 0 active rows and a plan without filter,
    the ANN executor never runs a filter task; it hands
    [mask_with_timestamps] a bitset of n bits with no bit set, then
    [mask_with_delete] the outcome, and either returns the empty result
    (every bit set after the masks) or what [vector_search] returns for the
    masked bitset. *)
Theorem X13_ann_without_filter (ph : Placeholder)
  (others : PlaceholderGroup) (node : VectorPlanNode PlanNode) :
  filter_plannode_ node = None ->
  0 < get_active_count segment ts ->
  let n := get_active_count segment ts in
  let nq := num_of_queries_ ph in
  let info := search_info_ node in
  let stamped := mask_with_timestamps segment (zeros n) ts in
  let masked := mask_with_delete segment stamped n ts in
  let calls := [ EvGetActiveCount ts; EvMaskWithTimestamps (zeros n) ts;
                 EvMaskWithDelete stamped n ts ] in
  size (zeros n) = n /\ count (zeros n) = 0 /\
  VectorVisitorImpl segment ts (ph :: others) node [] =
    if all masked
    then Ok (empty_search_result nq info, calls)
    else Ok (vector_search segment info (blob_ ph) nq ts masked,
             calls ++ [EvVectorSearch info (blob_ ph) nq ts masked]).
Proof.
  intros Hf Hn n nq info stamped masked calls.
  destruct (zeros_size_count n) as [S C]; [subst n; lia|].
  split; [exact S | split; [exact C|]].
  unfold VectorVisitorImpl. run. simpl.
  destruct (Z.eqb_spec (get_active_count segment ts) 0) as [E|_]; [lia|].
  rewrite Hf. run. simpl. fold n stamped masked.
  destruct (all masked); reflexivity.
Qed.

(** X14: on a segment with no active row the retrieve executor makes one
    call, [get_active_count]: it runs no filter and applies no mask, and
    returns the count 0 when [is_count_] is set and the empty result
    otherwise. *)
Theorem X14_retrieve_empty_segment (node : RetrievePlanNode PlanNode) :
  get_active_count segment ts = 0 ->
  visit segment ts node [] =
    Ok (if is_count_ node then wrap_num_entities 0 else RetrieveResult_new,
        [EvGetActiveCount ts]).
Proof.
  intros H. unfold visit. run. simpl. rewrite H. simpl.
  now destruct (is_count_ node).
Qed.

(** X15: for well-formed task results, [ExecuteExprNodeInternal] discards
    whatever the bitset argument held and returns the chunks' boolean
    vectors in order; the offset cache is taken once: if the flag was
    already set on entry the cache comes back as it was, otherwise the
    offsets of the first row-vector result are appended to it and the flag
    is set, and later row vectors add nothing.  Its only call is the filter
    task. *)
Theorem X15_expr_node_outputs (plannode : PlanNode) (out : ExprOut)
  (bits : BitsetType) (log : list (Event PlanNode)) :
  filter_bits (task_results segment plannode ts) = Some bits ->
  let found := materialized_offsets (task_results segment plannode ts) in
  ExecuteExprNodeInternal segment ts plannode out log =
    Ok ({| bitset_holder := bits;
           cache_offset_getted := cache_offset_getted out || is_some found;
           cache_offset :=
             if cache_offset_getted out then cache_offset out
             else cache_offset out ++ new_offsets found |},
        log ++ [EvTask plannode ts]).
Proof.
  intros H found. unfold ExecuteExprNodeInternal. run. simpl.
  now rewrite (ExecutorFacts.drain_spec _ bits [] _ _ H).
Qed.

Lemma append_result_rejected (childrens : list Vector) (e : ErrorKind)
  (out : ExprOut) :
  rejected childrens = Some e -> append_result childrens out = Err e.
Proof.
  destruct childrens as [|first [|second more]]; intros H.
  - injection H as <-. reflexivity.
  - destruct first; try discriminate H. injection H as <-. reflexivity.
  - assert (e = AssertViolation) as ->.
    { destruct first; simpl in H; congruence. }
    unfold append_result.
    assert (L : (Z.of_nat (List.length (first :: second :: more)) =? 1)
                = false).
    { apply Z.eqb_neq. simpl List.length. lia. }
    now rewrite L.
Qed.

Lemma drain_rejected (good : list (list Vector)) :
  forall (bits : BitsetType) (bad : list Vector)
         (rest : list (list Vector)) (e : ErrorKind) (out : ExprOut),
    filter_bits good = Some bits ->
    rejected bad = Some e ->
    drain (good ++ bad :: rest) out = Err e.
Proof.
  induction good as [|childrens good IH]; intros bits bad rest e out Hg Hb.
  - simpl. now rewrite (append_result_rejected bad e out Hb).
  - simpl in Hg.
    destruct (chunk_bools childrens) as [data|] eqn:Hc; [|discriminate].
    destruct (filter_bits good) as [bits'|] eqn:Hr; [|discriminate].
    destruct out as [b g c]. simpl.
    rewrite (ExecutorFacts.append_result_spec _ _ _ _ _ Hc). cbn [bindE].
    now apply IH with (bits := bits').
Qed.

(** X16: a task result that is not exactly one vector, or whose single
    vector is neither a [ColumnVector] nor a [RowVector], arriving after
    well-formed results, aborts the whole plan: [ExecuteExprNodeInternal],
    the ANN executor and the retrieve executor (on a segment with active
    rows) all fail, with the assertion failure in the first case and with
    [UnexpectedError] in the second. *)
Theorem X16_malformed_result_aborts (plannode : PlanNode)
  (good : list (list Vector)) (bits : BitsetType) (bad : list Vector)
  (rest : list (list Vector)) (e : ErrorKind) :
  task_results segment plannode ts = good ++ bad :: rest ->
  filter_bits good = Some bits ->
  rejected bad = Some e ->
  get_active_count segment ts <> 0 ->
  (forall out log,
     ExecuteExprNodeInternal segment ts plannode out log = Err e) /\
  (forall ph others info,
     VectorVisitorImpl segment ts (ph :: others)
       (mkVectorPlanNode info (Some plannode)) [] = Err e) /\
  (forall limit is_count,
     visit segment ts (mkRetrievePlanNode (Some plannode) limit is_count) []
     = Err e).
Proof.
  intros Hres Hgood Hbad Hn.
  assert (X : forall out log,
             ExecuteExprNodeInternal segment ts plannode out log = Err e).
  { intros out log. unfold ExecuteExprNodeInternal. run. simpl.
    rewrite Hres. now rewrite (drain_rejected good bits bad rest e _ Hgood Hbad). }
  split; [exact X | split].
  - intros ph others info. unfold VectorVisitorImpl. run. simpl.
    destruct (Z.eqb_spec (get_active_count segment ts) 0) as [E|_];
      [contradiction|].
    unfold ExecuteExprNode. run. now rewrite X.
  - intros limit is_count. unfold visit. run. simpl.
    destruct (Z.eqb_spec (get_active_count segment ts) 0) as [E|_];
      [contradiction|]. simpl.
    now rewrite X.
Qed.

Lemma ExecuteExprNodeInternal_log (plannode : PlanNode) (out out' : ExprOut)
  (log log' : list (Event PlanNode)) :
  ExecuteExprNodeInternal segment ts plannode out log = Ok (out', log') ->
  log' = log ++ [EvTask plannode ts].
Proof.
  unfold ExecuteExprNodeInternal. run.
  destruct (drain _ _); intros H; inversion H; reflexivity.
Qed.

Ltac case_ifs :=
  repeat match goal with
         | |- context [if ?c then _ else _] => destruct c
         end.

Ltac read_run :=
  let H := fresh in
  intros H; inversion H; subst; clear H; cbn -[ExecuteExprNodeInternal];
  repeat split; auto; intros; try discriminate.

(** X17: whenever the retrieve executor returns a result, on any segment
    and for any task results, its first call was [get_active_count], it ran
    at most one filter task, and it never called [vector_search]; with
    [is_count_] set it called neither [timestamp_filter] nor [find_first]. *)
Theorem X17_retrieve_calls (node : RetrievePlanNode PlanNode)
  (result : RetrieveResult) (log : list (Event PlanNode)) :
  visit segment ts node [] = Ok (result, log) ->
  hd_error log = Some (EvGetActiveCount ts) /\
  (List.length (filter is_task log) <= 1)%nat /\
  forallb (fun e => negb (is_vector_search e)) log = true /\
  (is_count_ node = true ->
   forallb (fun e => negb (to_filter_or_find e)) log = true).
Proof.
  destruct node as [filter limit is_count].
  unfold visit. run. cbn -[ExecuteExprNodeInternal].
  destruct (get_active_count segment ts =? 0); cbn -[ExecuteExprNodeInternal].
  - destruct is_count; cbn -[ExecuteExprNodeInternal]; read_run.
  - destruct filter as [plannode|]; cbn -[ExecuteExprNodeInternal].
    + match goal with
      | |- context [ExecuteExprNodeInternal ?a ?b ?c ?d ?l] =>
          destruct (ExecuteExprNodeInternal a b c d l)
            as [[out log1]|e] eqn:E; [|discriminate]
      end.
      apply ExecuteExprNodeInternal_log in E. subst log1. cbn -[ExecuteExprNodeInternal].
      destruct is_count; case_ifs; read_run.
    + destruct is_count; case_ifs; read_run.
Qed.

(** X18: whenever the ANN executor returns a result, on any segment and
    for any task results, its first call was [get_active_count], it ran at
    most one filter task, it called neither [timestamp_filter] nor
    [find_first], and [vector_search] can only have been its last call. *)
Theorem X18_ann_calls (placeholder_group : PlaceholderGroup)
  (node : VectorPlanNode PlanNode) (result : SearchResult)
  (log : list (Event PlanNode)) :
  VectorVisitorImpl segment ts placeholder_group node [] = Ok (result, log) ->
  hd_error log = Some (EvGetActiveCount ts) /\
  (List.length (filter is_task log) <= 1)%nat /\
  forallb (fun e => negb (to_filter_or_find e)) log = true /\
  forallb (fun e => negb (is_vector_search e)) (removelast log) = true.
Proof.
  destruct node as [info filter].
  unfold VectorVisitorImpl. run. cbn -[ExecuteExprNodeInternal].
  destruct placeholder_group as [|ph others]; cbn -[ExecuteExprNodeInternal]; [discriminate|].
  destruct (get_active_count segment ts =? 0); cbn -[ExecuteExprNodeInternal].
  - read_run.
  - destruct filter as [plannode|]; cbn -[ExecuteExprNodeInternal].
    + unfold ExecuteExprNode. run.
      match goal with
      | |- context [ExecuteExprNodeInternal ?a ?b ?c ?d ?l] =>
          destruct (ExecuteExprNodeInternal a b c d l)
            as [[out log1]|e] eqn:E; [|discriminate]
      end.
      apply ExecuteExprNodeInternal_log in E. subst log1. cbn -[ExecuteExprNodeInternal].
      case_ifs; read_run.
    + case_ifs; read_run.
Qed.

(** X19: whenever the retrieve executor returns a result, on any segment:
    with [is_count_] set the result holds no offsets and exactly one Int64
    value, which is not negative; without [is_count_] it holds no field
    data. *)
Theorem X19_retrieve_result_shape (node : RetrievePlanNode PlanNode)
  (result : RetrieveResult) (log : list (Event PlanNode)) :
  visit segment ts node [] = Ok (result, log) ->
  if is_count_ node
  then result_offsets_ result = [] /\
       exists cnt, 0 <= cnt /\
         field_data_ result = [ {| type := Int64; long_data := [cnt] |} ]
  else field_data_ result = [].
Proof.
  destruct node as [filter limit is_count].
  unfold visit. run. cbn -[ExecuteExprNodeInternal].
  destruct (get_active_count segment ts =? 0); cbn -[ExecuteExprNodeInternal].
  - destruct is_count; cbn -[ExecuteExprNodeInternal]; read_run. exists 0. split; [lia | reflexivity].
  - destruct filter as [plannode|]; cbn -[ExecuteExprNodeInternal].
    + match goal with
      | |- context [ExecuteExprNodeInternal ?a ?b ?c ?d ?l] =>
          destruct (ExecuteExprNodeInternal a b c d l)
            as [[out log1]|e] eqn:E; [|discriminate]
      end.
      destruct is_count; cbn -[ExecuteExprNodeInternal];
        rewrite ?andb_false_r, ?andb_true_r; case_ifs; read_run;
        eexists; (split; [|reflexivity]);
        match goal with
        | |- 0 <= size ?b - count ?b =>
            pose proof (ExecutorFacts.count_le_size b); lia
        end.
    + destruct is_count; cbn; rewrite ?andb_false_r, ?andb_true_r;
        case_ifs; read_run;
        eexists; (split; [|reflexivity]);
        match goal with
        | |- 0 <= size ?b - count ?b =>
            pose proof (ExecutorFacts.count_le_size b); lia
        end.
Qed.

End More.

(** Scenario S4 as an ANN search without filter: the rows inserted after
    the query timestamp are masked, the index is searched on the rest. *)
Lemma X13_ann_without_filter_witness :
  VectorVisitorImpl S4_segment 5 [mkPlaceholder 1 [7]]
    (mkVectorPlanNode (mkSearchInfo 3 L2 0) None) [] =
  Ok ({| total_nq_ := 1; unity_topK_ := 3;
         seg_offsets_ := [0; 1; 2; 3; 4];
         distances_ := map measured [0; 1; 2; 3; 4] |},
      [ EvGetActiveCount 5;
        EvMaskWithTimestamps (repeat false 10) 5;
        EvMaskWithDelete
          [false; false; false; false; false; true; true; true; true; true]
          10 5;
        EvVectorSearch (mkSearchInfo 3 L2 0) [7] 1 5
          [false; false; false; false; false; true; true; true; true; true]
      ]).
Proof.
  exact (proj2 (proj2
           (X13_ann_without_filter S4_segment 5 (mkPlaceholder 1 [7]) []
              (mkVectorPlanNode (mkSearchInfo 3 L2 0) None)
              eq_refl eq_refl))).
Defined.

Lemma X14_retrieve_empty_segment_witness :
  visit (table_segment [] [] [[ColumnVector (BoolData [true])]]) 5
        (mkRetrievePlanNode (Some tt) 10 true) [] =
    Ok (wrap_num_entities 0, [EvGetActiveCount 5]) /\
  visit (table_segment [] [] [[ColumnVector (BoolData [true])]]) 5
        (mkRetrievePlanNode (Some tt) 10 false) [] =
    Ok (RetrieveResult_new, [EvGetActiveCount 5]).
Proof.
  split.
  - exact (X14_retrieve_empty_segment
             (table_segment [] [] [[ColumnVector (BoolData [true])]]) 5
             (mkRetrievePlanNode (Some tt) 10 true) eq_refl).
  - exact (X14_retrieve_empty_segment
             (table_segment [] [] [[ColumnVector (BoolData [true])]]) 5
             (mkRetrievePlanNode (Some tt) 10 false) eq_refl).
Defined.

(** Two row-vector chunks: the offsets of the first are cached, those of
    the second are not; a bitset passed in is dropped. *)
Lemma X15_expr_node_outputs_witness :
  ExecuteExprNodeInternal
    (table_segment [1; 1; 1] []
       [ [RowVector [ColumnVector (BoolData [true; false]);
                     ColumnVector (Int64Data [0])]];
         [RowVector [ColumnVector (BoolData [true]);
                     ColumnVector (Int64Data [2])]] ])
    5 tt (mkExprOut [true; true; true; true] false [9]) [] =
  Ok (mkExprOut [true; false; true] true [9; 0], [EvTask tt 5]).
Proof.
  exact (X15_expr_node_outputs
           (table_segment [1; 1; 1] []
              [ [RowVector [ColumnVector (BoolData [true; false]);
                            ColumnVector (Int64Data [0])]];
                [RowVector [ColumnVector (BoolData [true]);
                            ColumnVector (Int64Data [2])]] ])
           5 tt (mkExprOut [true; true; true; true] false [9])
           [true; false; true] [] eq_refl).
Defined.

(** A second task result with two children fails the assertion; a
    second result of an unknown vector class is an [UnexpectedError]. *)
Lemma X16_malformed_result_aborts_witness :
  visit (S5_segment [ [ColumnVector (BoolData S5_matches)];
                      [ColumnVector (BoolData []);
                       ColumnVector (BoolData [])] ]) 5
        (mkRetrievePlanNode (Some tt) 10 false) [] = Err AssertViolation /\
  VectorVisitorImpl
    (S5_segment [ [ColumnVector (BoolData S5_matches)]; [BaseVector] ]) 5
    [mkPlaceholder 1 [7]]
    (mkVectorPlanNode (mkSearchInfo 3 L2 0) (Some tt)) [] =
    Err UnexpectedError.
Proof.
  split.
  - refine (proj2 (proj2
              (X16_malformed_result_aborts
                 (S5_segment [ [ColumnVector (BoolData S5_matches)];
                               [ColumnVector (BoolData []);
                                ColumnVector (BoolData [])] ]) 5 tt
                 [[ColumnVector (BoolData S5_matches)]] S5_matches
                 [ColumnVector (BoolData []); ColumnVector (BoolData [])]
                 [] AssertViolation eq_refl eq_refl eq_refl _)) 10 false).
    discriminate.
  - refine (proj1 (proj2
              (X16_malformed_result_aborts
                 (S5_segment [ [ColumnVector (BoolData S5_matches)];
                               [BaseVector] ]) 5 tt
                 [[ColumnVector (BoolData S5_matches)]] S5_matches
                 [BaseVector] [] UnexpectedError
                 eq_refl eq_refl eq_refl _))
              (mkPlaceholder 1 [7]) [] (mkSearchInfo 3 L2 0)).
    discriminate.
Defined.

Lemma X17_retrieve_calls_witness :
  let log : list (Event unit) :=
    [ EvGetActiveCount 5; EvTask tt 5;
      EvMaskWithTimestamps [false; false; false; false; true; true] 5;
      EvMaskWithDelete [false; false; false; false; true; true] 6 5;
      EvTimestampFilter [true; true; false; true; false; false] 5;
      EvFindFirst 10 [true; true; false; true; false; false] true ] in
  hd_error log = Some (EvGetActiveCount 5) /\
  (List.length (filter is_task log) <= 1)%nat /\
  forallb (fun e => negb (is_vector_search e)) log = true /\
  (false = true ->
   forallb (fun e => negb (to_filter_or_find e)) log = true).
Proof.
  exact (X17_retrieve_calls
           (S5_segment [[ColumnVector (BoolData S5_matches)]]) 5
           (mkRetrievePlanNode (Some tt) 10 false)
           {| field_data_ := []; result_offsets_ := [0; 1; 3] |} _
           eq_refl).
Defined.

Lemma X18_ann_calls_witness :
  let log : list (Event unit) :=
    [ EvGetActiveCount 5; EvTask tt 5;
      EvMaskWithTimestamps [false; false; false; false; true; true] 5;
      EvMaskWithDelete [false; false; false; false; true; true] 6 5;
      EvVectorSearch (mkSearchInfo 3 L2 0) [1; 2] 2 5
        [false; false; true; false; true; true] ] in
  hd_error log = Some (EvGetActiveCount 5) /\
  (List.length (filter is_task log) <= 1)%nat /\
  forallb (fun e => negb (to_filter_or_find e)) log = true /\
  forallb (fun e => negb (is_vector_search e)) (removelast log) = true.
Proof.
  exact (X18_ann_calls
           (S5_segment [[ColumnVector (BoolData S5_matches)]]) 5
           [mkPlaceholder 2 [1; 2]]
           (mkVectorPlanNode (mkSearchInfo 3 L2 0) (Some tt))
           {| total_nq_ := 2; unity_topK_ := 3; seg_offsets_ := [0; 1; 3];
              distances_ := [measured 0; measured 1; measured 3] |} _
           eq_refl).
Defined.

Lemma X19_retrieve_result_shape_witness :
  (result_offsets_ (wrap_num_entities 3) = [] /\
   exists cnt, 0 <= cnt /\
     field_data_ (wrap_num_entities 3) =
       [ {| type := Int64; long_data := [cnt] |} ]) /\
  field_data_ {| field_data_ := []; result_offsets_ := [0; 1; 3] |} = [].
Proof.
  split.
  - exact (X19_retrieve_result_shape
             (S5_segment [[ColumnVector (BoolData S5_matches)]]) 5
             (mkRetrievePlanNode (Some tt) 10 true)
             (wrap_num_entities 3) _ eq_refl).
  - exact (X19_retrieve_result_shape
             (S5_segment [[ColumnVector (BoolData S5_matches)]]) 5
             (mkRetrievePlanNode (Some tt) 10 false)
             {| field_data_ := []; result_offsets_ := [0; 1; 3] |} _
             eq_refl).
Defined.

End ExecutorMore.

(** ** Properties of segcore/load_index_c.cpp *)

Module LoadIndexFacts.
Import LoadIndex.
Local Open Scope string_scope.

Lemma str_app_assoc (a b c : string) : (a ++ b) ++ c = a ++ b ++ c.
Proof. induction a as [|x a IH]; simpl; now rewrite ?IH. Qed.

Lemma str_app_inv_head (p a b : string) : p ++ a = p ++ b -> a = b.
Proof.
  induction p as [|x p IH]; simpl; intros H; [exact H|].
  injection H as H. now apply IH.
Qed.

Lemma no_separator_uint (d : Decimal.uint) :
  no_separator (NilEmpty.string_of_uint d) = true.
Proof. induction d; simpl; auto. Qed.

Lemma no_separator_to_string (z : Z) :
  no_separator (Scheduler.to_string z) = true.
Proof.
  unfold Scheduler.to_string.
  destruct (Z.to_int z); simpl; apply no_separator_uint.
Qed.

Lemma to_string_nonempty (z : Z) : Scheduler.to_string z <> "".
Proof.
  intros E.
  assert (H : Some (Z.to_int z) = Some (Decimal.Pos Decimal.Nil)).
  { rewrite <- (NilEmpty.isi (Z.to_int z)).
    unfold Scheduler.to_string in E. now rewrite E. }
  injection H as H.
  destruct z as [|p|p]; simpl in H; try discriminate H.
  injection H as H. now apply DecimalPos.Unsigned.to_uint_nonnil in H.
Qed.

Lemma split_at_separator (a : string) :
  forall a' r r',
    no_separator a = true -> no_separator a' = true ->
    a ++ String "/" r = a' ++ String "/" r' -> a = a' /\ r = r'.
Proof.
  induction a as [|x a IH]; intros [|y a'] r r' Ha Ha' E; simpl in *.
  - injection E as E. auto.
  - injection E as E1 E2. subst y.
    apply andb_prop in Ha'. destruct Ha' as [N _]. discriminate N.
  - injection E as E1 E2. subst x.
    apply andb_prop in Ha. destruct Ha as [N _]. discriminate N.
  - injection E as E1 E2. subst y.
    apply andb_prop in Ha. apply andb_prop in Ha'.
    destruct (IH a' r r') as [-> ->]; tauto.
Qed.

Lemma has_filename_app (p s : string) :
  s <> "" -> has_filename (p ++ s) = has_filename s.
Proof.
  intros Hs. induction p as [|x p IH]; simpl; [reflexivity|].
  rewrite IH. destruct (p ++ s) eqn:E; [|reflexivity].
  destruct p; simpl in E; [contradiction | discriminate].
Qed.

Lemma has_filename_plain (s : string) :
  s <> "" -> no_separator s = true -> has_filename s = true.
Proof.
  induction s as [|x s IH]; intros Hs Hn; [contradiction|].
  simpl in *. apply andb_prop in Hn. destruct Hn as [Hx Hn].
  destruct s as [|y s]; [exact Hx|].
  apply IH; [discriminate | exact Hn].
Qed.

Lemma has_filename_number (p : string) (z : Z) :
  has_filename (p ++ Scheduler.to_string z) = true.
Proof.
  rewrite has_filename_app by apply to_string_nonempty.
  apply has_filename_plain;
    [apply to_string_nonempty | apply no_separator_to_string].
Qed.

Lemma path_append_directory (p q : string) :
  path_append p q = as_directory p ++ q.
Proof.
  unfold path_append, as_directory.
  destruct (has_filename p); [now rewrite str_app_assoc | reflexivity].
Qed.

Lemma mmap_filepath_shape (dir : string) (s f i : Z) :
  mmap_filepath dir s f i =
  as_directory dir ++ Scheduler.to_string s ++ "/"
    ++ Scheduler.to_string f ++ "/" ++ Scheduler.to_string i.
Proof.
  unfold mmap_filepath.
  rewrite (path_append_directory dir).
  unfold path_append at 2. rewrite has_filename_number.
  unfold path_append. rewrite <- str_app_assoc at 1.
  rewrite <- (str_app_assoc _ "/" (Scheduler.to_string f)).
  rewrite <- str_app_assoc.
  rewrite has_filename_number.
  now rewrite !str_app_assoc.
Qed.

(** X20: the mmap file of an index is the directory (with a separator
    added unless the directory is empty or ends in one), then the decimal
    segment id, field id and index id, separated by "/"; for one directory
    two indexes get the same file only if all three ids agree. *)
Theorem X20_mmap_filepath (dir : string) (s f i s' f' i' : Z) :
  mmap_filepath dir s f i =
    as_directory dir ++ Scheduler.to_string s ++ "/"
      ++ Scheduler.to_string f ++ "/" ++ Scheduler.to_string i /\
  (mmap_filepath dir s f i = mmap_filepath dir s' f' i' <->
   s = s' /\ f = f' /\ i = i').
Proof.
  split; [apply mmap_filepath_shape|].
  split; [|intros (-> & -> & ->); reflexivity].
  rewrite !mmap_filepath_shape. intros E.
  apply str_app_inv_head in E.
  apply split_at_separator in E; try apply no_separator_to_string.
  destruct E as [Es E].
  apply split_at_separator in E; try apply no_separator_to_string.
  destruct E as [Ef Ei].
  repeat split; now apply SchedulerFacts.to_string_inj.
Qed.

Ltac open_bodies :=
  unfold AppendIndex, appendVecIndex, appendScalarIndex, AppendIndexV2,
    AppendIndexV3, try_catch, after_load, sound_outcome, requirements_met,
    failure, success.

Ltac case_matches :=
  repeat match goal with
         | |- context [match ?x with _ => _ end] =>
             lazymatch x with
             | context [match _ with _ => _ end] => fail
             | _ => destruct x eqn:?
             end;
             cbn [fst snd error_code error_msg index
                  set_index enable_mmap mmap_dir_path]
         end.


Section Appends.

Context {DataType Index BinarySet ChunkManager Space : Type}.
Variable env : Collaborators DataType Index BinarySet ChunkManager Space.

(** X21: whatever the collaborators do, [AppendIndex], [AppendIndexV2] and
    [AppendIndexV3] write no field of the info but its [index] pointer. *)
Theorem X21_appends_write_index_only (info : LoadIndexInfo DataType Index)
  (binary_set : BinarySet) :
  clear_index (snd (AppendIndex env info binary_set)) = clear_index info /\
  clear_index (snd (AppendIndexV2 env info)) = clear_index info /\
  clear_index (snd (AppendIndexV3 env info)) = clear_index info.
Proof.
  open_bodies. repeat split; case_matches; reflexivity.
Qed.


(** X23: without an index type in the parameters the three append
    functions fail on their first assertion and leave the info as it was;
    no index is created. *)
Theorem X23_index_type_required (info : LoadIndexInfo DataType Index)
  (binary_set : BinarySet) :
  index_params info "index_type" = None ->
  AppendIndexV2 env info =
    (failure (AssertFailed "index type is empty"), info) /\
  AppendIndexV3 env info =
    (failure (AssertFailed "index type is empty"), info) /\
  AppendIndex env info binary_set =
    (failure (AssertFailed
                (if datatype_is_vector env (field_type info)
                 then "index type is empty"
                 else "Can't find index type in index_params")), info).
Proof.
  intros H. open_bodies. rewrite H.
  repeat split. now destruct (datatype_is_vector env (field_type info)).
Qed.

(** X24: for a vector field with an index type but no metric type, the
    three append functions fail on the metric assertion and leave the
    info as it was: no index is created. *)
Theorem X24_metric_type_for_vectors (info : LoadIndexInfo DataType Index)
  (binary_set : BinarySet) (index_type : string) :
  index_params info "index_type" = Some index_type ->
  index_params info "metric_type" = None ->
  datatype_is_vector env (field_type info) = true ->
  AppendIndexV2 env info =
    (failure (AssertFailed "metric type is empty for vector index"), info)
  /\
  AppendIndexV3 env info =
    (failure (AssertFailed "metric type is empty for vector index"), info)
  /\
  AppendIndex env info binary_set =
    (failure (AssertFailed "metric type is empty"), info).
Proof.
  intros Hi Hm Hv. open_bodies. rewrite Hi, Hm, Hv. repeat split.
Qed.


(** X26: with [enable_mmap] off, [AppendIndexV2] never reads
    [mmap_dir_path]: whatever the directory, it returns the same status and
    stores the same index. *)
Theorem X26_v2_reads_directory_only_for_mmap
  (info : LoadIndexInfo DataType Index) (dir : string) :
  enable_mmap info = false ->
  AppendIndexV2 env (with_mmap_dir_path info dir) =
    (fst (AppendIndexV2 env info),
     with_mmap_dir_path (snd (AppendIndexV2 env info)) dir).
Proof.
  intros H. destruct info. cbn [enable_mmap] in H. subst.
  open_bodies.
  unfold with_mmap_dir_path, field_meta_of, index_meta_of.
  cbn [index_params field_type uri index_store_version mmap_dir_path
       set_index collection_id partition_id segment_id field_id index_id
       index_build_id index_version index_files index enable_mmap
       index_engine_version andb].
  case_matches; reflexivity.
Qed.

(** X27: when [AppendIndexV2] has created an index that supports mmap,
    [enable_mmap] is on and the directory is empty, it fails on the
    assertion about the directory after the index was stored: the info
    comes back holding the created index, which was never loaded. *)
Theorem X27_v2_empty_directory (info : LoadIndexInfo DataType Index)
  (index_type metric_type : string) (created : Index) :
  index_params info "index_type" = Some index_type ->
  (if datatype_is_vector env (field_type info)
   then index_params info "metric_type" else Some "") = Some metric_type ->
  CreateIndex env
    (mkCreateIndexInfo (field_type info) index_type metric_type
       (Some (index_engine_version info)))
    (Context_ (field_meta_of info) (index_meta_of info)
       (Some (GetRemoteChunkManager env)) None) = inr created ->
  enable_mmap info = true ->
  IsMmapSupported env created = true ->
  mmap_dir_path info = "" ->
  AppendIndexV2 env info =
    (failure (AssertFailed "mmap directory path is empty"),
     set_index info created).
Proof.
  intros Hi Hm Hc He Hs Hd. open_bodies.
  rewrite Hi, Hm, Hc.
  cbn [enable_mmap mmap_dir_path set_index].
  now rewrite He, Hs, Hd.
Qed.

End Appends.

Section Setters.

Context {DataType Index : Type}.

(** X28: calling [AppendIndexFilePath] once per path always succeeds and
    leaves the paths at the end of [index_files] in call order, repeated
    paths included; no other field changes. *)
Theorem X28_file_paths_in_call_order (paths : list string) :
  forall info : LoadIndexInfo DataType Index,
    append_file_paths info paths =
      (map (fun _ => success) paths,
       mkLoadIndexInfo (collection_id info) (partition_id info)
         (segment_id info) (field_id info) (field_type info)
         (enable_mmap info) (mmap_dir_path info) (index_id info)
         (index_build_id info) (index_version info) (index_params info)
         (index_files info ++ paths)%list (index info) (uri info)
         (index_store_version info) (index_engine_version info)).
Proof.
  induction paths as [|path rest IH]; intros info.
  - simpl. rewrite app_nil_r. now destruct info.
  - cbn [append_file_paths]. unfold AppendIndexFilePath, try_catch.
    rewrite IH. cbn. now rewrite <- app_assoc.
Qed.

(** X29: calling [AppendIndexParam] once per (key, value) always succeeds;
    afterwards a key reads as the value of the last pair that named it, and
    as before when no pair named it; the file list and the index are
    untouched. *)
Theorem X29_last_param_wins (pairs : list (string * string)) :
  forall (info : LoadIndexInfo DataType Index) (key : string),
    fst (append_params info pairs) = map (fun _ => success) pairs /\
    index_params (snd (append_params info pairs)) key =
      match last_binding pairs key with
      | Some value => Some value
      | None => index_params info key
      end /\
    index_files (snd (append_params info pairs)) = index_files info /\
    index (snd (append_params info pairs)) = index info.
Proof.
  induction pairs as [|[k v] rest IH]; intros info key.
  - repeat split.
  - cbn [append_params]. unfold AppendIndexParam, try_catch.
    cbn [fst snd].
    match goal with
    | |- context [append_params ?i rest] =>
        destruct (IH i key) as (S & P & F & I);
        destruct (append_params i rest) as [statuses info']
    end.
    cbn [fst snd map last_binding index_params index_files index] in *.
    rewrite S, P, F, I. unfold assign.
    repeat split.
    destruct (last_binding rest key); [reflexivity|].
    now destruct (String.eqb k key).
Qed.

(** X30: [AppendFieldInfo], [AppendIndexInfo],
    [AppendIndexEngineVersionToLoadInfo] and [AppendStorageInfo] always
    succeed and write disjoint fields: called in this order or in the
    reverse order they leave the same info, whose scalar fields are the
    arguments given and whose parameters, file list and index are those it
    had. *)
Theorem X30_field_setters_commute (info : LoadIndexInfo DataType Index)
  (collection partition segment field : Z) (type : DataType) (mmap : bool)
  (dir : string) (id build version engine : Z) (uri_ : string)
  (store : Z) :
  let written :=
    mkLoadIndexInfo collection partition segment field type mmap dir
      id build version (index_params info) (index_files info) (index info)
      uri_ store engine in
  let '(s1, i1) :=
    AppendFieldInfo info collection partition segment field type mmap dir in
  let '(s2, i2) := AppendIndexInfo i1 id build version in
  let '(s3, i3) := AppendIndexEngineVersionToLoadInfo i2 engine in
  let i4 := AppendStorageInfo i3 uri_ store in
  let j1 := AppendStorageInfo info uri_ store in
  let '(t2, j2) := AppendIndexEngineVersionToLoadInfo j1 engine in
  let '(t3, j3) := AppendIndexInfo j2 id build version in
  let '(t4, j4) :=
    AppendFieldInfo j3 collection partition segment field type mmap dir in
  i4 = written /\ j4 = written /\
  [s1; s2; s3; t2; t3; t4] = repeat success 6.
Proof.
  cbn. repeat split.
Qed.

End Setters.

Local Open Scope list_scope.

Lemma X23_index_type_required_witness :
  AppendIndexV2 test_env (test_info no_params true "/m") =
    (failure (AssertFailed "index type is empty"),
     test_info no_params true "/m") /\
  AppendIndex test_env (test_info no_params true "/m") tt =
    (failure (AssertFailed "index type is empty"),
     test_info no_params true "/m").
Proof.
  destruct (X23_index_type_required test_env
              (test_info no_params true "/m") tt eq_refl) as (H2 & _ & H1).
  split; [exact H2 | exact H1].
Defined.

Lemma X24_metric_type_for_vectors_witness :
  AppendIndexV3 test_env
    (test_info (assign no_params "index_type" "HNSW") false "") =
    (failure (AssertFailed "metric type is empty for vector index"),
     test_info (assign no_params "index_type" "HNSW") false "").
Proof.
  exact (proj1 (proj2
           (X24_metric_type_for_vectors test_env
              (test_info (assign no_params "index_type" "HNSW") false "")
              tt "HNSW" eq_refl eq_refl eq_refl))).
Defined.

Lemma X26_v2_reads_directory_only_for_mmap_witness :
  AppendIndexV2 test_env
    (test_info (assign (assign no_params "index_type" "HNSW")
                       "metric_type" "L2") false "/elsewhere") =
    (success,
     set_index
       (test_info (assign (assign no_params "index_type" "HNSW")
                          "metric_type" "L2") false "/elsewhere")
       "HNSW loaded").
Proof.
  exact (X26_v2_reads_directory_only_for_mmap test_env
           (test_info (assign (assign no_params "index_type" "HNSW")
                              "metric_type" "L2") false "/m")
           "/elsewhere" eq_refl).
Defined.

Lemma X27_v2_empty_directory_witness :
  AppendIndexV2 test_env
    (test_info (assign (assign no_params "index_type" "HNSW")
                       "metric_type" "L2") true "") =
    (failure (AssertFailed "mmap directory path is empty"),
     set_index
       (test_info (assign (assign no_params "index_type" "HNSW")
                          "metric_type" "L2") true "")
       "HNSW").
Proof.
  exact (X27_v2_empty_directory test_env
           (test_info (assign (assign no_params "index_type" "HNSW")
                              "metric_type" "L2") true "")
           "HNSW" "L2" "HNSW" eq_refl eq_refl eq_refl eq_refl eq_refl
           eq_refl).
Defined.

End LoadIndexFacts.
